(** * Outgoing payments: command API, GraphQL resolvers and the SPSP endpoint

    A shallow embedding of
    - [packages/backend/src/outgoing_payment/service.ts]
      ([createOutgoingPayment], [requotePayment], [approvePayment],
      [cancelPayment]),
    - the GraphQL resolvers for outgoing payments ([clientErrors], the
      [createOutgoingPayment] mutation, [getOutgoingPaymentPageInfo]),
    - [packages/backend/src/services/spsp.ts] ([handleSPSP]),
    - the migrations that create the [users] and the [grants] table,
    followed by the properties of the specification that concern them.

    Database rows live in a finite map from payment id to row.  Calls to
    collaborators outside the repository (the ILP plugin, [Pay.setupPayment],
    the account service, the logger) are answered by the functions of a
    dependency record and are written to a call log, in call order. *)

From Stdlib Require Import ZArith List Bool.
From stdpp Require Import gmap strings list fin_maps.

(** ** JavaScript values the code tests *)

Module JS.

(** An optional string property: [None] is [undefined]. *)
Definition truthy (v : option string) : bool :=
  match v with
  | None => false
  | Some EmptyString => false
  | Some (String _ _) => true
  end.

(** [v !== undefined]. *)
Definition defined {A : Type} (v : option A) : bool :=
  match v with
  | None => false
  | Some _ => true
  end.

(** [haystack.includes(needle)]. *)
Fixpoint startsWith (needle haystack : string) : bool :=
  match needle, haystack with
  | EmptyString, _ => true
  | String _ _, EmptyString => false
  | String a n, String b h => Ascii.eqb a b && startsWith n h
  end.

Fixpoint includes (needle haystack : string) : bool :=
  startsWith needle haystack ||
  match haystack with
  | EmptyString => false
  | String _ h => includes needle h
  end.

End JS.

(** ** [PaymentError] of [@interledger/pay]

    The members are the keys of the resolver's [clientErrors] table, whose
    type [{ [key in PaymentError]: boolean }] makes it list every member. *)

Inductive PaymentError : Type :=
  | InvalidPaymentPointer
  | InvalidCredentials
  | InvalidSlippage
  | UnknownSourceAsset
  | UnknownPaymentTarget
  | InvalidSourceAmount
  | InvalidDestinationAmount
  | UnenforceableDelivery
  | InvalidQuote
  | QueryFailed
  | InvoiceAlreadyPaid
  | ConnectorError
  | EstablishmentFailed
  | UnknownDestinationAsset
  | DestinationAssetConflict
  | ExternalRateUnavailable
  | RateProbeFailed
  | InsufficientExchangeRate
  | IdleTimeout
  | ClosedByReceiver
  | IncompatibleReceiveMax
  | ReceiverProtocolViolation
  | MaxSafeEncryptionLimit.

#[global] Instance PaymentError_eq_dec : EqDecision PaymentError.
Proof. solve_decision. Defined.

(** A [PaymentError] is a string enum: the value is the member's name. *)
Definition PaymentError_name (e : PaymentError) : string :=
  match e with
  | InvalidPaymentPointer => "InvalidPaymentPointer"
  | InvalidCredentials => "InvalidCredentials"
  | InvalidSlippage => "InvalidSlippage"
  | UnknownSourceAsset => "UnknownSourceAsset"
  | UnknownPaymentTarget => "UnknownPaymentTarget"
  | InvalidSourceAmount => "InvalidSourceAmount"
  | InvalidDestinationAmount => "InvalidDestinationAmount"
  | UnenforceableDelivery => "UnenforceableDelivery"
  | InvalidQuote => "InvalidQuote"
  | QueryFailed => "QueryFailed"
  | InvoiceAlreadyPaid => "InvoiceAlreadyPaid"
  | ConnectorError => "ConnectorError"
  | EstablishmentFailed => "EstablishmentFailed"
  | UnknownDestinationAsset => "UnknownDestinationAsset"
  | DestinationAssetConflict => "DestinationAssetConflict"
  | ExternalRateUnavailable => "ExternalRateUnavailable"
  | RateProbeFailed => "RateProbeFailed"
  | InsufficientExchangeRate => "InsufficientExchangeRate"
  | IdleTimeout => "IdleTimeout"
  | ClosedByReceiver => "ClosedByReceiver"
  | IncompatibleReceiveMax => "IncompatibleReceiveMax"
  | ReceiverProtocolViolation => "ReceiverProtocolViolation"
  | MaxSafeEncryptionLimit => "MaxSafeEncryptionLimit"
  end.

(** The members of the enum, in the order of the table. *)
Definition PaymentError_members : list PaymentError :=
  [ InvalidPaymentPointer; InvalidCredentials; InvalidSlippage;
    UnknownSourceAsset; UnknownPaymentTarget; InvalidSourceAmount;
    InvalidDestinationAmount; UnenforceableDelivery; InvalidQuote;
    QueryFailed; InvoiceAlreadyPaid; ConnectorError; EstablishmentFailed;
    UnknownDestinationAsset; DestinationAssetConflict;
    ExternalRateUnavailable; RateProbeFailed; InsufficientExchangeRate;
    IdleTimeout; ClosedByReceiver; IncompatibleReceiveMax;
    ReceiverProtocolViolation; MaxSafeEncryptionLimit ].

(** The member a string is the value of, if any. *)
Definition PaymentError_of_string (s : string) : option PaymentError :=
  find (fun e => String.eqb (PaymentError_name e) s) PaymentError_members.

(** ** Promises

    What a promise settles to: a value, or the thrown value.  The code throws
    [new Error(message)], a bare string, or, through Koa's [ctx.throw], an
    HTTP error with a status. *)

Inductive Thrown : Type :=
  | JsError (message : string)
  | JsString (value : string)
  | HttpError (status : nat) (message : option string).

(** [Pay.setupPayment] rejects with a [PaymentError], which is a string. *)
Definition PayError (e : PaymentError) : Thrown :=
  JsString (PaymentError_name e).

Inductive Outcome (A : Type) : Type :=
  | Resolved (a : A)
  | Rejected (t : Thrown).

Arguments Resolved {A} a.
Arguments Rejected {A} t.

(** An asynchronous computation over a state [S]: it settles and leaves a
    state behind. *)
Definition Async (S A : Type) : Type := S -> Outcome A * S.

#[global] Instance Async_ret (S : Type) : MRet (Async S) :=
  fun A a s => (Resolved a, s).

#[global] Instance Async_bind (S : Type) : MBind (Async S) :=
  fun A B k m s =>
    match m s with
    | (Resolved a, s') => k a s'
    | (Rejected t, s') => (Rejected t, s')
    end.

Definition throw {S A : Type} (t : Thrown) : Async S A :=
  fun s => (Rejected t, s).

(** [promise.finally(cleanup)]: the cleanup runs on both outcomes; the
    promise keeps its outcome unless the cleanup itself throws. *)
Definition finally {S A : Type} (m : Async S A) (cleanup : Async S ()) :
  Async S A :=
  fun s =>
    match m s with
    | (o, s') =>
        match cleanup s' with
        | (Resolved _, s'') => (o, s'')
        | (Rejected t, s'') => (Rejected t, s'')
        end
    end.

(** ** The payment model *)

Module Model.

(** Modelled from the spec: the [PaymentState] enum of [./model], which is
    not among the sources.  The members the service names ([Inactive],
    [Ready], [Activated], [Cancelling], [Cancelled]) keep their names;
    [Inactive] is the state [createOutgoingPayment] inserts, that is the
    initial state, which section 4.2 of the specification calls Quoting;
    [Sending] and [Completed] are the remaining states of section 4.2. *)
Inductive PaymentState : Type :=
  | Inactive
  | Ready
  | Activated
  | Sending
  | Cancelling
  | Cancelled
  | Completed.

#[global] Instance PaymentState_eq_dec : EqDecision PaymentState.
Proof. solve_decision. Defined.

(** The text of [${payment.state}]: the value of a member of this string
    enum, taken to be the member's name. *)
Definition PaymentState_name (s : PaymentState) : string :=
  match s with
  | Inactive => "Inactive"
  | Ready => "Ready"
  | Activated => "Activated"
  | Sending => "Sending"
  | Cancelling => "Cancelling"
  | Cancelled => "Cancelled"
  | Completed => "Completed"
  end.

(** Modelled from the spec: [LifecycleError] of [./lifecycle], which is not
    among the sources; the members are those of section 7. *)
Inductive LifecycleError : Type :=
  | CancelledByAPI
  | QuoteExpired
  | RetriesExhausted
  | QuoteFailed
  | SendFailed.

(** The [error] column holds an error code of either enum. *)
Inductive ErrorCode : Type :=
  | Lifecycle (e : LifecycleError)
  | Pay (e : PaymentError).

Record PaymentIntent : Type := {
  paymentPointer : option string;
  invoiceUrl : option string;
  amountToSend : option Z;
  autoApprove : bool
}.

Record SourceAccount : Type := {
  source_id : string;
  source_code : string;
  source_scale : Z
}.

Record DestinationAccount : Type := {
  destination_scale : Z;
  destination_code : string;
  destination_url : option string
}.

(** Modelled from the spec: the quote column (section 3.1); the commands
    below only ever read or write it as a whole. *)
Record Quote : Type := {
  timestamp : Z;
  activationDeadline : Z;
  minDeliveryAmount : Z;
  maxSourceAmount : Z
}.

(** A row of [outgoing_payments], with the columns the service names. *)
Record OutgoingPayment : Type := {
  id : string;
  state : PaymentState;
  stateAttempts : nat;
  error : option ErrorCode;
  quote : option Quote;
  intent : PaymentIntent;
  superAccountId : string;
  sourceAccount : SourceAccount;
  destinationAccount : option DestinationAccount
}.

(** The argument of [patch]: [None] is a key the object does not have. *)
Record Patch : Type := {
  patch_state : option PaymentState;
  patch_error : option ErrorCode
}.

(** [payment.$query(trx).patch(p)] on the row: the columns the patch names
    are overwritten, every other column is kept.  The update hooks of the
    model class of [./model], which is not among the sources, are not part of
    this definition: it is the update the service itself asks for. *)
Definition patched (p : Patch) (old : OutgoingPayment) : OutgoingPayment :=
  {| id := id old;
     state := default (state old) (patch_state p);
     stateAttempts := stateAttempts old;
     error := match patch_error p with
              | Some e => Some e
              | None => error old
              end;
     quote := quote old;
     intent := intent old;
     superAccountId := superAccountId old;
     sourceAccount := sourceAccount old;
     destinationAccount := destinationAccount old |}.

End Model.

(** ** The outgoing payment service ([outgoing_payment/service.ts]) *)

Module Service.
Import Model.

(** What [Pay.setupPayment] resolves to, as far as the service reads it. *)
Record Destination : Type := {
  destinationAsset_code : string;
  destinationAsset_scale : Z;
  accountUrl : option string
}.

(** What [accountService.create] returns when it is not an account error. *)
Record Account : Type := {
  account_id : string;
  asset_code : string;
  asset_scale : Z
}.

Record CreateOutgoingPaymentOptions : Type := {
  options_intent : PaymentIntent;
  options_superAccountId : string
}.

(** Calls that leave the service, in the order they are made. *)
Inductive Call : Type :=
  | LoggerWarn (message : string)
  | PluginConnect (sourceAccountId : string)
  | SetupPayment (pointer invoice : option string)
  | PluginDisconnect (sourceAccountId : string)
  | AccountCreate (superAccount : string).

#[global] Instance Call_eq_dec : EqDecision Call.
Proof. solve_decision. Defined.

(** The table of payments, keyed by id, and the log of outside calls. *)
Record World : Type := {
  payments : gmap string OutgoingPayment;
  calls : list Call
}.

(** [ServiceDependencies]: how the collaborators answer.  [connect] and
    [disconnect] are the methods of [makeIlpPlugin(sourceAccountId)];
    [accountService_create] returns an account error (its text) or an
    account; [newPaymentId] is the id the model gives an inserted row. *)
Record ServiceDependencies : Type := {
  connect : string -> Outcome ();
  disconnect : string -> Outcome ();
  Pay_setupPayment : option string -> option string -> Outcome Destination;
  accountService_create : string -> Outcome (string + Account);
  newPaymentId : gmap string OutgoingPayment -> string
}.

Definition call {A : Type} (c : Call) (answer : Outcome A) : Async World A :=
  fun w => (answer, {| payments := payments w; calls := calls w ++ [c] |}).

Definition logger_warn (message : string) : Async World () :=
  call (LoggerWarn message) (Resolved ()).

(** [knex.transaction(body)]: a body that throws is rolled back; the calls it
    made outside the database stay made. *)
Definition transaction {A : Type} (body : Async World A) : Async World A :=
  fun w =>
    match body w with
    | (Resolved a, w') => (Resolved a, w')
    | (Rejected t, w') =>
        (Rejected t, {| payments := payments w; calls := calls w' |})
    end.

(** [OutgoingPayment.query(trx).findById(id).forUpdate()]. *)
Definition findById (id : string) : Async World (option OutgoingPayment) :=
  fun w => (Resolved (payments w !! id), w).

(** [payment.$query(trx).patch(p)]: the row whose id is [payment.id] is
    updated, and so is the instance. *)
Definition patch (payment : OutgoingPayment) (p : Patch) :
  Async World OutgoingPayment :=
  fun w =>
    (Resolved (patched p payment),
     {| payments := <[Model.id payment := patched p payment]> (payments w);
        calls := calls w |}).

(** [OutgoingPayment.query(knex).insertAndFetch(row)].  Modelled from the
    spec: the columns the inserted object does not name take the defaults of
    the model class, which is not among the sources: no quote, no error and,
    by section 4.1, [stateAttempts = 0]. *)
Definition insertAndFetch (deps : ServiceDependencies)
  (state : PaymentState) (intent : PaymentIntent) (superAccountId : string)
  (sourceAccount : SourceAccount) (destinationAccount : DestinationAccount) :
  Async World OutgoingPayment :=
  fun w =>
    let row := {| Model.id := newPaymentId deps (payments w);
                  Model.state := state;
                  Model.stateAttempts := 0;
                  Model.error := None;
                  Model.quote := None;
                  Model.intent := intent;
                  Model.superAccountId := superAccountId;
                  Model.sourceAccount := sourceAccount;
                  Model.destinationAccount := Some destinationAccount |} in
    (Resolved row,
     {| payments := <[Model.id row := row]> (payments w);
        calls := calls w |}).

Definition getOutgoingPayment (id : string) :
  Async World (option OutgoingPayment) :=
  fun w => (Resolved (payments w !! id), w).

(** The guard of [createOutgoingPayment]:
    [options.invoiceUrl &&
     (options.paymentPointer || options.amountToSend !== undefined)]. *)
Definition invalid_parameters (options : CreateOutgoingPaymentOptions) : bool :=
  JS.truthy (invoiceUrl (options_intent options)) &&
  (JS.truthy (paymentPointer (options_intent options)) ||
   JS.defined (amountToSend (options_intent options))).

(** [plugin.disconnect().catch((err) => logger.warn(...))].  The source
    does not await this promise; here it settles at once, so the warning, if
    any, is logged right after the call. *)
Definition disconnect_and_warn (deps : ServiceDependencies)
  (sourceAccountId : string) : Async World () :=
  fun w =>
    match call (PluginDisconnect sourceAccountId)
               (disconnect deps sourceAccountId) w with
    | (Resolved _, w') => (Resolved (), w')
    | (Rejected _, w') => logger_warn "error disconnecting plugin" w'
    end.

Definition createOutgoingPayment (deps : ServiceDependencies)
  (options : CreateOutgoingPaymentOptions) : Async World OutgoingPayment :=
  if invalid_parameters options then
    _ ← logger_warn "createOutgoingPayment invalid parameters";
    throw (JsError
      "invoiceUrl and (paymentPointer,amountToSend) are mutually exclusive")
  else
    let superAccount := options_superAccountId options in
    let pointer := paymentPointer (options_intent options) in
    let invoice := invoiceUrl (options_intent options) in
    _ ← call (PluginConnect superAccount) (connect deps superAccount);
    destination ←
      finally
        (call (SetupPayment pointer invoice)
              (Pay_setupPayment deps pointer invoice))
        (disconnect_and_warn deps superAccount);
    sourceAccount ←
      call (AccountCreate superAccount)
           (accountService_create deps superAccount);
    match sourceAccount with
    | inl accountError =>
        _ ← logger_warn
              "createOutgoingPayment source account creation failed";
        throw (JsError
          ("unable to create source account, err=" +:+ accountError))
    | inr account =>
        insertAndFetch deps
          Inactive
          {| paymentPointer := pointer;
             invoiceUrl := invoice;
             amountToSend := amountToSend (options_intent options);
             autoApprove := autoApprove (options_intent options) |}
          superAccount
          {| source_id := account_id account;
             source_code := asset_code account;
             source_scale := asset_scale account |}
          {| destination_scale := destinationAsset_scale destination;
             destination_code := destinationAsset_code destination;
             destination_url := accountUrl destination |}
    end.

Definition requotePayment (id : string) : Async World OutgoingPayment :=
  transaction (
    payment ← findById id;
    match payment with
    | None => throw (JsError "payment does not exist")
    | Some payment =>
        if negb (bool_decide (state payment = Cancelled)) then
          throw (JsError ("Cannot quote; payment is in state=" +:+
                          PaymentState_name (state payment)))
        else
          patch payment {| patch_state := Some Inactive;
                           patch_error := None |}
    end).

Definition approvePayment (id : string) : Async World OutgoingPayment :=
  transaction (
    payment ← findById id;
    match payment with
    | None => throw (JsError "payment does not exist")
    | Some payment =>
        if negb (bool_decide (state payment = Ready)) then
          throw (JsError ("Cannot approve; payment is in state=" +:+
                          PaymentState_name (state payment)))
        else
          patch payment {| patch_state := Some Activated;
                           patch_error := None |}
    end).

Definition cancelPayment (id : string) : Async World OutgoingPayment :=
  transaction (
    payment ← findById id;
    match payment with
    | None => throw (JsError "payment does not exist")
    | Some payment =>
        if negb (bool_decide (state payment = Ready)) then
          throw (JsError ("Cannot cancel; payment is in state=" +:+
                          PaymentState_name (state payment)))
        else
          patch payment {| patch_state := Some Cancelling;
                           patch_error := Some (Lifecycle CancelledByAPI) |}
    end).

End Service.

(** ** The GraphQL resolvers for outgoing payments *)

Module Resolvers.

(** [isPaymentError(err)]: the thrown value is a member of the enum. *)
Definition isPaymentError (err : Thrown) : bool :=
  match err with
  | JsString s => JS.defined (PaymentError_of_string s)
  | JsError _ | HttpError _ _ => false
  end.

Definition clientErrors (e : PaymentError) : bool :=
  match e with
  | InvalidPaymentPointer => true
  | InvalidCredentials => true
  | InvalidSlippage => false
  | UnknownSourceAsset => true
  | UnknownPaymentTarget => true
  | InvalidSourceAmount => true
  | InvalidDestinationAmount => true
  | UnenforceableDelivery => true
  | InvalidQuote => false
  | QueryFailed => true
  | InvoiceAlreadyPaid => false
  | ConnectorError => false
  | EstablishmentFailed => false
  | UnknownDestinationAsset => false
  | DestinationAssetConflict => false
  | ExternalRateUnavailable => false
  | RateProbeFailed => false
  | InsufficientExchangeRate => false
  | IdleTimeout => false
  | ClosedByReceiver => false
  | IncompatibleReceiveMax => false
  | ReceiverProtocolViolation => false
  | MaxSafeEncryptionLimit => false
  end.

(** [clientErrors[err]], where a key the table does not have gives
    [undefined], which is falsy. *)
Definition clientErrors_at (err : Thrown) : bool :=
  match err with
  | JsString s =>
      match PaymentError_of_string s with
      | Some e => clientErrors e
      | None => false
      end
  | JsError _ | HttpError _ _ => false
  end.

(** [CreateError]: the keys of [createErrorToResponse]. *)
Inductive CreateError : Type :=
  | UnknownAccount
  | UnknownMandate.

Record OutgoingPaymentResponse (SchemaPayment : Type) : Type := {
  code : string;
  success : bool;
  message : option string;
  payment : option SchemaPayment
}.

Arguments code {SchemaPayment} _.
Arguments success {SchemaPayment} _.
Arguments message {SchemaPayment} _.
Arguments payment {SchemaPayment} _.

Definition createErrorToResponse {SchemaPayment : Type} (e : CreateError) :
  OutgoingPaymentResponse SchemaPayment :=
  match e with
  | UnknownAccount =>
      {| code := "404"; message := Some "Unknown account"; success := false;
         payment := None |}
  | UnknownMandate =>
      {| code := "404"; message := Some "Unknown mandate"; success := false;
         payment := None |}
  end.

(** [typeof err === 'string' ? err : err.message]. *)
Definition message_of (err : Thrown) : option string :=
  match err with
  | JsString s => Some s
  | JsError m => Some m
  | HttpError _ m => m
  end.

Record Edge : Type := {
  cursor : string;
  node_id : string
}.

Record PageInfo : Type := {
  endCursor : option string;
  hasNextPage : bool;
  hasPreviousPage : bool;
  startCursor : option string
}.

(** The pagination argument of [getAccountPage]. *)
Record Pagination : Type := {
  after : option string;
  before : option string;
  first : option nat;
  last : option nat
}.

Section WithPayments.

(** The payment type of the service the resolvers are given, and the schema
    type [paymentToGraphql] turns it into. *)
Context {Payment SchemaPayment : Type}.
Variable paymentToGraphql : Payment -> SchemaPayment.
Variable accountId : Payment -> string.

(** The [createOutgoingPayment] mutation, as a function of what
    [outgoingPaymentService.create(args.input)] settles to: the [then]
    handler on a value, the [catch] handler on a thrown value. *)
Definition createOutgoingPayment (created : Outcome (Payment + CreateError)) :
  OutgoingPaymentResponse SchemaPayment :=
  match created with
  | Resolved (inr createError) => createErrorToResponse createError
  | Resolved (inl paymentOrErr) =>
      {| code := "200"; success := true; message := None;
         payment := Some (paymentToGraphql paymentOrErr) |}
  | Rejected err =>
      {| code := if isPaymentError err && clientErrors_at err
                 then "400" else "500";
         success := false;
         message := message_of err;
         payment := None |}
  end.

(** The two methods of the payment service that [pageInfo] calls. *)
Record PageService : Type := {
  get : string -> Outcome (option Payment);
  getAccountPage : string -> Pagination -> Outcome (list Payment)
}.

(** [try { page = await getAccountPage(..) } catch (e) { page = [] }]. *)
Definition page_or_empty (page : Outcome (list Payment)) : list Payment :=
  match page with
  | Resolved payments => payments
  | Rejected _ => []
  end.

(** The [pageInfo] resolver; [None] is an [edges] that is [null] or
    [undefined].  The call of [logger.info] is left out. *)
Definition getOutgoingPaymentPageInfo (service : PageService)
  (edges : option (list Edge)) : Outcome PageInfo :=
  match edges with
  | None | Some [] =>
      Resolved {| hasPreviousPage := false; hasNextPage := false;
                  endCursor := None; startCursor := None |}
  | Some (edge0 :: rest) =>
      let firstEdge := cursor edge0 in
      let lastEdge := cursor (List.last rest edge0) in
      match get service (node_id edge0) with
      | Rejected err => Rejected err
      | Resolved None => Rejected (JsString "payment does not exist")
      | Resolved (Some firstPayment) =>
          let hasNextPagePayments :=
            page_or_empty
              (getAccountPage service (accountId firstPayment)
                 {| after := Some lastEdge; first := Some 1%nat;
                    before := None; last := None |}) in
          let hasPreviousPagePayments :=
            page_or_empty
              (getAccountPage service (accountId firstPayment)
                 {| before := Some firstEdge; last := Some 1%nat;
                    after := None; first := None |}) in
          Resolved
            {| endCursor := Some lastEdge;
               hasNextPage := Nat.eqb (length hasNextPagePayments) 1;
               hasPreviousPage := Nat.eqb (length hasPreviousPagePayments) 1;
               startCursor := Some firstEdge |}
      end
  end.

(** The [id] of a payment, which [paymentToGraphql] copies to the node. *)
Variable payment_id : Payment -> string.

(** [err.message]: a thrown string has none. *)
Definition err_message (err : Thrown) : option string :=
  match err with
  | JsError m => Some m
  | HttpError _ m => m
  | JsString _ => None
  end.

(** The [createOutgoingInvoicePayment] mutation, as a function of what
    [outgoingPaymentService.create(args.input)] settles to. *)
Definition createOutgoingInvoicePayment
  (created : Outcome (Payment + CreateError)) :
  OutgoingPaymentResponse SchemaPayment :=
  match created with
  | Resolved (inr createError) => createErrorToResponse createError
  | Resolved (inl paymentOrErr) =>
      {| code := "200"; success := true; message := None;
         payment := Some (paymentToGraphql paymentOrErr) |}
  | Rejected err =>
      {| code := if isPaymentError err && clientErrors_at err
                 then "400" else "500";
         success := false;
         message := message_of err;
         payment := None |}
  end.

(** The [requoteOutgoingPayment] mutation, as a function of what
    [outgoingPaymentService.requote(args.paymentId)] settles to.  An
    [OutgoingPaymentError] is a string enum, given here by its value. *)
Definition requoteOutgoingPayment (requoted : Outcome (Payment + string)) :
  OutgoingPaymentResponse SchemaPayment :=
  match requoted with
  | Resolved (inr paymentOrErr) =>
      {| code := "400"; success := false; message := Some paymentOrErr;
         payment := None |}
  | Resolved (inl paymentOrErr) =>
      {| code := "200"; success := true; message := None;
         payment := Some (paymentToGraphql paymentOrErr) |}
  | Rejected err =>
      {| code := "500"; success := false; message := err_message err;
         payment := None |}
  end.

(** The [fundOutgoingPayment] mutation, as a function of what
    [outgoingPaymentService.fund(..)] settles to. *)
Definition fundOutgoingPayment (funded : Outcome (Payment + string)) :
  OutgoingPaymentResponse SchemaPayment :=
  match funded with
  | Resolved (inr paymentOrErr) =>
      {| code := "400"; success := false; message := Some paymentOrErr;
         payment := None |}
  | Resolved (inl paymentOrErr) =>
      {| code := "200"; success := true; message := None;
         payment := Some (paymentToGraphql paymentOrErr) |}
  | Rejected err =>
      {| code := "500"; success := false; message := err_message err;
         payment := None |}
  end.

(** The [cancelOutgoingPayment] mutation, as a function of what
    [outgoingPaymentService.cancel(args.paymentId)] settles to. *)
Definition cancelOutgoingPayment (cancelled : Outcome (Payment + string)) :
  OutgoingPaymentResponse SchemaPayment :=
  match cancelled with
  | Resolved (inr paymentOrErr) =>
      {| code := "400"; success := false; message := Some paymentOrErr;
         payment := None |}
  | Resolved (inl paymentOrErr) =>
      {| code := "200"; success := true; message := None;
         payment := Some (paymentToGraphql paymentOrErr) |}
  | Rejected err =>
      {| code := "500"; success := false; message := err_message err;
         payment := None |}
  end.

(** The [outgoingPayment] query, as a function of what
    [outgoingPaymentService.get(args.id)] settles to. *)
Definition getOutgoingPayment (found : Outcome (option Payment)) :
  Outcome SchemaPayment :=
  match found with
  | Rejected err => Rejected err
  | Resolved None => Rejected (JsError "payment does not exist")
  | Resolved (Some payment) => Resolved (paymentToGraphql payment)
  end.

(** The [outcome] resolver: [parent_id] is [parent.id], [getTotalSent] the
    method of the accounting service; the result is [amountSent]. *)
Definition getOutcome (service : PageService)
  (getTotalSent : string -> Outcome (option Z)) (parent_id : option string) :
  Outcome Z :=
  match parent_id with
  | Some id =>
      if negb (JS.truthy parent_id) then Rejected (JsError "missing id")
      else
        match get service id with
        | Rejected err => Rejected err
        | Resolved None => Rejected (JsError "payment does not exist")
        | Resolved (Some payment) =>
            match getTotalSent (payment_id payment) with
            | Rejected err => Rejected err
            | Resolved None =>
                Rejected (JsError "payment account does not exist")
            | Resolved (Some totalSent) => Resolved totalSent
            end
        end
  | None => Rejected (JsError "missing id")
  end.

(** The [outgoingPayments] resolver of an account: one edge per payment of
    the page, with the payment's id as cursor; the node, which is
    [paymentToGraphql(payment)], is kept by its id. *)
Definition getAccountOutgoingPayments (service : PageService)
  (parent_id : option string) (args : Pagination) : Outcome (list Edge) :=
  match parent_id with
  | Some id =>
      if negb (JS.truthy parent_id) then
        Rejected (JsError "missing account id")
      else
        match getAccountPage service id args with
        | Rejected err => Rejected err
        | Resolved outgoingPayments =>
            Resolved
              (map (fun payment =>
                      {| cursor := payment_id payment;
                         node_id := payment_id payment |})
                   outgoingPayments)
        end
  | None => Rejected (JsError "missing account id")
  end.

End WithPayments.

End Resolvers.

(** ** The SPSP endpoint ([services/spsp.ts]) *)

Module SPSP.

Record Request : Type := {
  params_id : string;
  (** [ctx.get('accept')]: the empty string when the header is absent *)
  accept : string;
  (** [ctx.request.headers['receipt-nonce']], [None] when absent *)
  receipt_nonce : option string;
  receipt_secret : option string
}.

Record User : Type := {
  user_accountId : string
}.

Record Asset : Type := {
  asset_code : string;
  asset_scale : Z
}.

(** [res.data], as far as the handler reads it: whether [data.disabled] and
    [data.stream?.enabled] are truthy, and [data.asset]. *)
Record AccountData : Type := {
  data_disabled : bool;
  data_stream_enabled : bool;
  data_asset : option Asset
}.

Record AxiosResponse : Type := {
  res_status : nat;
  res_data : AccountData
}.

(** [receiptSetup]: the base64 text of the nonce and of the secret. *)
Record ReceiptSetup : Type := {
  setup_nonce : string;
  setup_secret : string
}.

Record Credentials : Type := {
  ilpAddress : string;
  sharedSecret : string
}.

(** The two JSON bodies the handler writes. *)
Inductive Body : Type :=
  | InvalidReceiverError
  | SpspResponse (destination_account shared_secret : string)
                 (receipts_enabled : bool).

Inductive Call : Type :=
  | UserFindById (id : string)
  | AxiosGet (accountId : string)
  | GenerateCredentials (paymentTag : string)
                        (receiptSetup : option ReceiptSetup)
                        (asset : option Asset).

(** The Koa context the handler writes to, and the calls it has made.
    [ctx_status] is the status once it has been set, [None] before that. *)
Record Ctx : Type := {
  ctx_status : option nat;
  ctx_content_type : option string;
  ctx_body : option Body;
  calls : list Call
}.

Definition fresh_ctx : Ctx :=
  {| ctx_status := None; ctx_content_type := None; ctx_body := None;
     calls := [] |}.

(** The libraries and services the handler calls: [uuid], the [User] model,
    the accounts service behind [axios], the STREAM server and [base64url]. *)
Record Environment : Type := {
  uuid_validate : string -> bool;
  uuid_version : string -> nat;
  User_findById : string -> Outcome (option User);
  axios_get : string -> Outcome AxiosResponse;
  generateCredentials :
    string -> option ReceiptSetup -> option Asset -> Outcome Credentials;
  base64url : string -> string
}.

Definition call {A : Type} (c : Call) (answer : Outcome A) : Async Ctx A :=
  fun ctx =>
    (answer,
     {| ctx_status := ctx_status ctx; ctx_content_type := ctx_content_type ctx;
        ctx_body := ctx_body ctx; calls := calls ctx ++ [c] |}).

Definition set_status (status : nat) : Async Ctx () :=
  fun ctx =>
    (Resolved (),
     {| ctx_status := Some status; ctx_content_type := ctx_content_type ctx;
        ctx_body := ctx_body ctx; calls := calls ctx |}).

Definition set_content_type (type : string) : Async Ctx () :=
  fun ctx =>
    (Resolved (),
     {| ctx_status := ctx_status ctx; ctx_content_type := Some type;
        ctx_body := ctx_body ctx; calls := calls ctx |}).

(** The status after a body has been set: Koa keeps a status that was set
    explicitly and sets 200 otherwise. *)
Definition status_with_body (status : option nat) : option nat :=
  match status with
  | Some explicit => Some explicit
  | None => Some 200
  end.

(** The content type after a string body has been set: Koa keeps a type
    that was set and otherwise takes a text that does not start with a tag,
    as the JSON texts here, for plain text. *)
Definition type_with_body (type : option string) : option string :=
  match type with
  | Some set => Some set
  | None => Some "text/plain; charset=utf-8"
  end.

(** [ctx.body = JSON.stringify(..)]. *)
Definition set_body (body : Body) : Async Ctx () :=
  fun ctx =>
    (Resolved (),
     {| ctx_status := status_with_body (ctx_status ctx);
        ctx_content_type := type_with_body (ctx_content_type ctx);
        ctx_body := Some body; calls := calls ctx |}).

(** [ctx.throw(status, message)]. *)
Definition ctx_throw {A : Type} (status : nat) (message : option string) :
  Async Ctx A :=
  throw (HttpError status message).

(** [err.message]. *)
Definition err_message (err : Thrown) : option string :=
  match err with
  | JsError m => Some m
  | HttpError _ m => m
  | JsString _ => None
  end.

Definition handleSPSP (env : Environment) (request : Request) :
  Async Ctx () :=
  if negb (uuid_validate env (params_id request)) ||
     negb (Nat.eqb (uuid_version env (params_id request)) 4)
  then
    ctx_throw 400 (Some "Failed to generate credentials: invalid user id")
  else if negb (JS.includes "application/spsp4+json" (accept request))
  then
    ctx_throw 406 (Some
      "Failed to generate credentials: invalid accept: must support application/spsp4+json")
  else
    let nonce := receipt_nonce request in
    let secret := receipt_secret request in
    if negb (Bool.eqb (negb (JS.truthy nonce)) (negb (JS.truthy secret)))
    then
      ctx_throw 400 (Some
        "Failed to generate credentials: receipt nonce and secret must accompany each other")
    else
      user ← call (UserFindById (params_id request))
                  (User_findById env (params_id request));
      res ← match user with
            | Some user =>
                res ← call (AxiosGet (user_accountId user))
                           (axios_get env (user_accountId user));
                mret (Some res)
            | None => mret None
            end;
      match user, res with
      | Some user, Some res =>
          if Nat.eqb (res_status res) 404 ||
             (Nat.eqb (res_status res) 200 && data_disabled (res_data res))
          then
            _ ← set_status 404;
            _ ← set_content_type "application/spsp4+json";
            set_body InvalidReceiverError
          else if negb (data_stream_enabled (res_data res)) then
            ctx_throw 400 (Some
              "Failed to generate credentials: stream is disabled for account")
          else
            let receiptSetup :=
              match nonce, secret with
              | Some n, Some s =>
                  if JS.truthy nonce && JS.truthy secret
                  then Some {| setup_nonce := n; setup_secret := s |}
                  else None
              | _, _ => None
              end in
            fun ctx =>
              match call (GenerateCredentials (user_accountId user)
                            receiptSetup (data_asset (res_data res)))
                         (generateCredentials env (user_accountId user)
                            receiptSetup (data_asset (res_data res))) ctx with
              | (Resolved credentials, ctx') =>
                  (_ ← set_content_type "application/spsp4+json";
                   set_body
                     (SpspResponse (ilpAddress credentials)
                        (base64url env (sharedSecret credentials))
                        (JS.truthy nonce && JS.truthy secret))) ctx'
              | (Rejected err, ctx') => ctx_throw 400 (err_message err) ctx'
              end
      | _, _ =>
          _ ← set_status 404;
          _ ← set_content_type "application/spsp4+json";
          set_body InvalidReceiverError
      end.

(** Credentials were issued: the STREAM server was asked for them. *)
Definition issued (c : Call) : bool :=
  match c with
  | GenerateCredentials _ _ _ => true
  | UserFindById _ | AxiosGet _ => false
  end.

End SPSP.

(** ** The migrations of the [users] and of the [grants] table *)

Module Migrations.

Inductive ColumnType : Type :=
  | uuid
  | timestamp
  | string_
  | integer
  | text_array.

(** A column as the table builder declares it. *)
Record Column : Type := {
  column_name : string;
  column_type : ColumnType;
  notNullable : bool;
  primary : bool;
  unique : bool;
  defaultTo_now : bool
}.

Definition column (name : string) (type : ColumnType) : Column :=
  {| column_name := name; column_type := type; notNullable := false;
     primary := false; unique := false; defaultTo_now := false |}.

Definition required (c : Column) : Column :=
  {| column_name := column_name c; column_type := column_type c;
     notNullable := true; primary := primary c; unique := unique c;
     defaultTo_now := defaultTo_now c |}.

Definition as_primary (c : Column) : Column :=
  {| column_name := column_name c; column_type := column_type c;
     notNullable := notNullable c; primary := true; unique := unique c;
     defaultTo_now := defaultTo_now c |}.

Definition as_unique (c : Column) : Column :=
  {| column_name := column_name c; column_type := column_type c;
     notNullable := notNullable c; primary := primary c; unique := true;
     defaultTo_now := defaultTo_now c |}.

Definition default_now (c : Column) : Column :=
  {| column_name := column_name c; column_type := column_type c;
     notNullable := notNullable c; primary := primary c; unique := unique c;
     defaultTo_now := true |}.

(** [knex.schema.createTable(name, ..)] on a database given by its tables:
    the database refuses, [None], a table it already has. *)
Definition createTable (name : string) (columns : list Column)
  (tables : gmap string (list Column)) : option (gmap string (list Column)) :=
  match tables !! name with
  | Some _ => None
  | None => Some (<[name := columns]> tables)
  end.

(** [knex.schema.dropTableIfExists(name)]. *)
Definition dropTableIfExists (name : string)
  (tables : gmap string (list Column)) : gmap string (list Column) :=
  delete name tables.

Definition users_columns : list Column :=
  [ as_primary (required (column "id" uuid));
    as_unique (required (column "accountId" uuid));
    default_now (column "createdAt" timestamp);
    default_now (column "updatedAt" timestamp) ].

Definition users_up (tables : gmap string (list Column)) :
  option (gmap string (list Column)) :=
  createTable "users" users_columns tables.

Definition users_down (tables : gmap string (list Column)) :
  gmap string (list Column) :=
  dropTableIfExists "users" tables.

Definition grants_columns : list Column :=
  [ as_primary (required (column "id" uuid));
    required (column "state" string_);
    required (column "type" string_);
    required (column "actions" text_array);
    required (column "startMethod" text_array);
    column "continueToken" string_;
    column "continueId" string_;
    column "wait" integer;
    required (column "finishMethod" string_);
    required (column "finishUri" string_);
    required (column "nonce" string_);
    required (column "interactRef" string_) ].

Definition grants_up (tables : gmap string (list Column)) :
  option (gmap string (list Column)) :=
  createTable "grants" grants_columns tables.

Definition grants_down (tables : gmap string (list Column)) :
  gmap string (list Column) :=
  dropTableIfExists "grants" tables.

End Migrations.

(** ** Wiring: the mutation resolver on top of the service *)

Module App.

Definition then_payment {A : Type} (settled : Outcome A) :
  Outcome (A + Resolvers.CreateError) :=
  match settled with
  | Resolved a => Resolved (inl a)
  | Rejected t => Rejected t
  end.

(** The [createOutgoingPayment] mutation with the service of
    [outgoing_payment/service.ts] behind it. *)
Definition createOutgoingPayment {SchemaPayment : Type}
  (paymentToGraphql : Model.OutgoingPayment -> SchemaPayment)
  (deps : Service.ServiceDependencies)
  (input : Service.CreateOutgoingPaymentOptions) (w : Service.World) :
  Resolvers.OutgoingPaymentResponse SchemaPayment * Service.World :=
  match Service.createOutgoingPayment deps input w with
  | (settled, w') =>
      (Resolvers.createOutgoingPayment paymentToGraphql (then_payment settled),
       w')
  end.

(** What the [then] handler of a mutation is given when the service
    resolves: the service of [outgoing_payment/service.ts] returns a payment,
    never an error value. *)
Definition returned {A E : Type} (settled : Outcome A) : Outcome (A + E) :=
  match settled with
  | Resolved a => Resolved (inl a)
  | Rejected t => Rejected t
  end.

(** The [requoteOutgoingPayment] and [cancelOutgoingPayment] mutations and
    the [outgoingPayment] query with that service behind them. *)
Definition requoteOutgoingPayment {SchemaPayment : Type}
  (paymentToGraphql : Model.OutgoingPayment -> SchemaPayment)
  (paymentId : string) (w : Service.World) :
  Resolvers.OutgoingPaymentResponse SchemaPayment * Service.World :=
  match Service.requotePayment paymentId w with
  | (settled, w') =>
      (Resolvers.requoteOutgoingPayment paymentToGraphql (returned settled),
       w')
  end.

Definition cancelOutgoingPayment {SchemaPayment : Type}
  (paymentToGraphql : Model.OutgoingPayment -> SchemaPayment)
  (paymentId : string) (w : Service.World) :
  Resolvers.OutgoingPaymentResponse SchemaPayment * Service.World :=
  match Service.cancelPayment paymentId w with
  | (settled, w') =>
      (Resolvers.cancelOutgoingPayment paymentToGraphql (returned settled),
       w')
  end.

Definition getOutgoingPayment {SchemaPayment : Type}
  (paymentToGraphql : Model.OutgoingPayment -> SchemaPayment)
  (id : string) (w : Service.World) : Outcome SchemaPayment :=
  Resolvers.getOutgoingPayment paymentToGraphql
    (fst (Service.getOutgoingPayment id w)).

End App.

(** ** Sample data *)

Module Sample.
Import Model Service.

Definition fixed_send : PaymentIntent :=
  {| paymentPointer := Some "$x/y"; invoiceUrl := None;
     amountToSend := Some 1000%Z; autoApprove := true |}.

Definition row (k : string) (s : PaymentState) (e : option ErrorCode) :
  OutgoingPayment :=
  {| Model.id := k; state := s; stateAttempts := 2; error := e;
     quote := None; intent := fixed_send; superAccountId := "A";
     sourceAccount := {| source_id := "A-sub"; source_code := "USD";
                         source_scale := 2 |};
     destinationAccount := None |}.

Definition world_with (p : OutgoingPayment) : World :=
  {| payments := {[ Model.id p := p ]}; calls := [] |}.

(** Collaborators that all answer: the pointer resolves to a EUR account. *)
Definition answering : ServiceDependencies :=
  {| connect := fun _ => Resolved ();
     disconnect := fun _ => Resolved ();
     Pay_setupPayment := fun _ _ =>
       Resolved {| destinationAsset_code := "EUR";
                   destinationAsset_scale := 2;
                   accountUrl := Some "https://x/y" |};
     accountService_create := fun _ =>
       Resolved (inr {| account_id := "A-sub"; asset_code := "USD";
                        asset_scale := 2 |});
     newPaymentId := fun _ => "p1" |}.

(** The same, with a streaming setup that fails. *)
Definition failing_setup (e : PaymentError) : ServiceDependencies :=
  {| connect := fun _ => Resolved ();
     disconnect := fun _ => Resolved ();
     Pay_setupPayment := fun _ _ => Rejected (PayError e);
     accountService_create := accountService_create answering;
     newPaymentId := newPaymentId answering |}.

Definition no_payments : World := {| payments := ∅; calls := [] |}.

Definition options_of (i : PaymentIntent) : CreateOutgoingPaymentOptions :=
  {| options_intent := i; options_superAccountId := "A" |}.

(** A payment pointer and no amount. *)
Definition pointer_only : PaymentIntent :=
  {| paymentPointer := Some "$x/y"; invoiceUrl := None;
     amountToSend := None; autoApprove := false |}.

(** A payment pointer and the amount 0. *)
Definition send_nothing : PaymentIntent :=
  {| paymentPointer := Some "$x/y"; invoiceUrl := None;
     amountToSend := Some 0%Z; autoApprove := false |}.

(** An invoice together with an amount. *)
Definition invoice_and_amount : PaymentIntent :=
  {| paymentPointer := None; invoiceUrl := Some "https://rcv/invoice/42";
     amountToSend := Some 0%Z; autoApprove := false |}.

Definition destination_EUR : DestinationAccount :=
  {| destination_scale := 2; destination_code := "EUR";
     destination_url := Some "https://x/y" |}.

(** A payment service for the page resolver, over the payments "p1" .. "p3"
    of account "acct": one more payment after "p2", none before "p1". *)
Definition three_payments : @Resolvers.PageService string :=
  {| Resolvers.get := fun k => Resolved (Some k);
     Resolvers.getAccountPage := fun _ page =>
       match Resolvers.after page with
       | Some _ => Resolved ["p3"]
       | None => Resolved []
       end |}.

Definition edge (k : string) : Resolvers.Edge :=
  {| Resolvers.cursor := k; Resolvers.node_id := k |}.

(** An SPSP environment in which every id is a version 4 UUID of a user
    whose account is enabled for STREAM. *)
Definition spsp_env : SPSP.Environment :=
  {| SPSP.uuid_validate := fun _ => true;
     SPSP.uuid_version := fun _ => 4;
     SPSP.User_findById := fun _ =>
       Resolved (Some {| SPSP.user_accountId := "acct" |});
     SPSP.axios_get := fun _ =>
       Resolved {| SPSP.res_status := 200;
                   SPSP.res_data :=
                     {| SPSP.data_disabled := false;
                        SPSP.data_stream_enabled := true;
                        SPSP.data_asset :=
                          Some {| SPSP.asset_code := "USD";
                                  SPSP.asset_scale := 2 |} |} |};
     SPSP.generateCredentials := fun tag _ _ =>
       Resolved {| SPSP.ilpAddress := "test.rafiki." +:+ tag;
                   SPSP.sharedSecret := "c2VjcmV0" |};
     SPSP.base64url := fun bytes => bytes |}.

Definition spsp_request (accept : string) (nonce secret : option string) :
  SPSP.Request :=
  {| SPSP.params_id := "0f4a4e3c-5b1d-4c2e-9d0a-2f6c1b7e8a90";
     SPSP.accept := accept;
     SPSP.receipt_nonce := nonce;
     SPSP.receipt_secret := secret |}.

(** Collaborators whose plugin does not connect. *)
Definition no_connection : ServiceDependencies :=
  {| connect := fun _ => Rejected (JsError "connect failed");
     disconnect := disconnect answering;
     Pay_setupPayment := Pay_setupPayment answering;
     accountService_create := accountService_create answering;
     newPaymentId := newPaymentId answering |}.

(** A page service over payments that are their own id, all of account
    "acct": the page of the account is "p1", "p2"; "p3" comes after "p2". *)
Definition account_pages : @Resolvers.PageService string :=
  {| Resolvers.get := fun k => Resolved (Some k);
     Resolvers.getAccountPage := fun _ page =>
       match Resolvers.after page, Resolvers.before page with
       | Some _, _ => Resolved ["p3"]
       | None, Some _ => Resolved []
       | None, None => Resolved ["p1"; "p2"]
       end |}.

Definition first_page : Resolvers.Pagination :=
  {| Resolvers.after := None; Resolvers.before := None;
     Resolvers.first := Some 2; Resolvers.last := None |}.

(** The SPSP environment above, with an account that is disabled. *)
Definition spsp_disabled : SPSP.Environment :=
  {| SPSP.uuid_validate := SPSP.uuid_validate spsp_env;
     SPSP.uuid_version := SPSP.uuid_version spsp_env;
     SPSP.User_findById := SPSP.User_findById spsp_env;
     SPSP.axios_get := fun _ =>
       Resolved {| SPSP.res_status := 200;
                   SPSP.res_data :=
                     {| SPSP.data_disabled := true;
                        SPSP.data_stream_enabled := true;
                        SPSP.data_asset := None |} |};
     SPSP.generateCredentials := SPSP.generateCredentials spsp_env;
     SPSP.base64url := SPSP.base64url spsp_env |}.

(** The SPSP environment above, with a STREAM server that throws. *)
Definition spsp_throwing : SPSP.Environment :=
  {| SPSP.uuid_validate := SPSP.uuid_validate spsp_env;
     SPSP.uuid_version := SPSP.uuid_version spsp_env;
     SPSP.User_findById := SPSP.User_findById spsp_env;
     SPSP.axios_get := SPSP.axios_get spsp_env;
     SPSP.generateCredentials := fun _ _ _ =>
       Rejected (JsError "invalid asset");
     SPSP.base64url := SPSP.base64url spsp_env |}.

Definition plain_request : SPSP.Request :=
  spsp_request "application/spsp4+json" None None.

End Sample.

(** ** The vocabulary of the specification *)

Module Spec.
Import Model Service.

(** The error a command throws on a payment in a state it does not accept:
    the specification's [WrongState]. *)
Definition WrongState (command : string) (s : PaymentState) : Thrown :=
  JsError ("Cannot " +:+ command +:+ "; payment is in state=" +:+
           PaymentState_name s).

(** The table is keyed by the [id] column. *)
Definition keyed_by_id (w : World) : Prop :=
  forall k p, payments w !! k = Some p -> Model.id p = k.

(** Two rows agree on every column a command never writes. *)
Definition same_payment (p q : OutgoingPayment) : Prop :=
  Model.id q = Model.id p /\
  intent q = intent p /\
  superAccountId q = superAccountId p /\
  sourceAccount q = sourceAccount p /\
  destinationAccount q = destinationAccount p.

(** The table after the row under [k] has been replaced by [p]. *)
Definition with_row (k : string) (p : OutgoingPayment) (w : World) : World :=
  {| payments := <[k := p]> (payments w); calls := calls w |}.

(** The calls [createOutgoingPayment] makes to release the plugin: the
    [disconnect], and a warning when it fails. *)
Definition release (deps : ServiceDependencies) (sourceAccountId : string) :
  list Call :=
  PluginDisconnect sourceAccountId ::
  match disconnect deps sourceAccountId with
  | Resolved _ => []
  | Rejected _ => [LoggerWarn "error disconnecting plugin"]
  end.

(** A call on the ILP plugin or on the streaming setup that uses it. *)
Definition plugin_call (c : Call) : bool :=
  match c with
  | PluginConnect _ | PluginDisconnect _ | SetupPayment _ _ => true
  | LoggerWarn _ | AccountCreate _ => false
  end.

(** The world after some more outside calls. *)
Definition after_calls (cs : list Call) (w : World) : World :=
  {| payments := payments w; calls := calls w ++ cs |}.

(** The row [createOutgoingPayment] inserts. *)
Definition created_row (deps : ServiceDependencies)
  (options : CreateOutgoingPaymentOptions) (destination : Destination)
  (account : Account) (w : World) : OutgoingPayment :=
  {| Model.id := newPaymentId deps (payments w);
     state := Inactive;
     stateAttempts := 0;
     error := None;
     quote := None;
     intent := {| paymentPointer := paymentPointer (options_intent options);
                  invoiceUrl := invoiceUrl (options_intent options);
                  amountToSend := amountToSend (options_intent options);
                  autoApprove := autoApprove (options_intent options) |};
     superAccountId := options_superAccountId options;
     sourceAccount := {| source_id := account_id account;
                         source_code := asset_code account;
                         source_scale := asset_scale account |};
     destinationAccount :=
       Some {| destination_scale := destinationAsset_scale destination;
               destination_code := destinationAsset_code destination;
               destination_url := accountUrl destination |} |}.

(** The text of the error for an intent that names both an invoice and a
    payment pointer or an amount. *)
Definition mutually_exclusive : Thrown :=
  JsError "invoiceUrl and (paymentPointer,amountToSend) are mutually exclusive".

(** The two shapes of intent the specification knows:
    [paymentPointer] with [amountToSend], or [invoiceUrl]. *)
Definition fixed_send_present (i : PaymentIntent) : bool :=
  JS.truthy (paymentPointer i) && JS.defined (amountToSend i).

Definition invoice_present (i : PaymentIntent) : bool :=
  JS.truthy (invoiceUrl i).

Definition exactly_one_present (i : PaymentIntent) : bool :=
  xorb (fixed_send_present i) (invoice_present i).

(** The partition of [PaymentError] in section 7 of the specification. *)
Definition terminal_client : list PaymentError :=
  [ InvalidPaymentPointer; InvalidCredentials; UnknownSourceAsset;
    UnknownPaymentTarget; InvalidSourceAmount; InvalidDestinationAmount;
    UnenforceableDelivery; QueryFailed ].

Definition retryable_server : list PaymentError :=
  [ InvalidSlippage; InvalidQuote; InvoiceAlreadyPaid; ConnectorError;
    EstablishmentFailed; UnknownDestinationAsset; DestinationAssetConflict;
    ExternalRateUnavailable; RateProbeFailed; InsufficientExchangeRate;
    IdleTimeout; ClosedByReceiver; IncompatibleReceiveMax;
    ReceiverProtocolViolation; MaxSafeEncryptionLimit ].

(** A page request that was answered with exactly one payment. *)
Definition exactly_one {Payment : Type} (page : Outcome (list Payment)) :
  bool :=
  match page with
  | Resolved [_] => true
  | Resolved _ | Rejected _ => false
  end.

(** A page of size 1 after, and before, a cursor. *)
Definition one_after (c : string) : Resolvers.Pagination :=
  {| Resolvers.after := Some c; Resolvers.first := Some 1;
     Resolvers.before := None; Resolvers.last := None |}.

Definition one_before (c : string) : Resolvers.Pagination :=
  {| Resolvers.before := Some c; Resolvers.last := Some 1;
     Resolvers.after := None; Resolvers.first := None |}.

(** The page info of an edge list that is empty or missing. *)
Definition no_pages : Resolvers.PageInfo :=
  {| Resolvers.hasPreviousPage := false; Resolvers.hasNextPage := false;
     Resolvers.endCursor := None; Resolvers.startCursor := None |}.

(** A receipt header is present: the request has it, with a value that is
    not empty. *)
Definition present (header : option string) : bool := JS.truthy header.

(** The accept header allows the SPSP media type. *)
Definition accepts_spsp4 (request : SPSP.Request) : bool :=
  JS.includes "application/spsp4+json" (SPSP.accept request).

(** The user id is a version 4 UUID. *)
Definition valid_user_id (env : SPSP.Environment) (request : SPSP.Request) :
  bool :=
  SPSP.uuid_validate env (SPSP.params_id request) &&
  Nat.eqb (SPSP.uuid_version env (SPSP.params_id request)) 4.

(** The receipt setup handed to the STREAM server. *)
Definition receipt_setup (request : SPSP.Request) :
  option SPSP.ReceiptSetup :=
  match SPSP.receipt_nonce request, SPSP.receipt_secret request with
  | Some n, Some s =>
      if present (SPSP.receipt_nonce request) &&
         present (SPSP.receipt_secret request)
      then Some {| SPSP.setup_nonce := n; SPSP.setup_secret := s |}
      else None
  | _, _ => None
  end.

(** The states in which no command of the API is accepted. *)
Definition closed_to_commands (s : PaymentState) : bool :=
  match s with
  | Inactive | Activated | Sending | Cancelling | Completed => true
  | Ready | Cancelled => false
  end.

(** The calls [createOutgoingPayment] has made once the streaming setup has
    settled. *)
Definition setup_calls (deps : ServiceDependencies)
  (options : CreateOutgoingPaymentOptions) : list Call :=
  [ PluginConnect (options_superAccountId options);
    SetupPayment (paymentPointer (options_intent options))
      (invoiceUrl (options_intent options)) ] ++
  release deps (options_superAccountId options).

(** The codes a mutation answers with. *)
Definition response_codes : list string := ["200"; "400"; "404"; "500"].

(** A response is well formed: it reports success exactly with the code
    '200', and exactly then it carries a payment. *)
Definition well_formed {SchemaPayment : Type}
  (r : Resolvers.OutgoingPaymentResponse SchemaPayment) : Prop :=
  In (Resolvers.code r) response_codes /\
  (Resolvers.success r = true <-> Resolvers.code r = "200") /\
  (Resolvers.success r = true <-> Resolvers.payment r <> None).

(** The Koa context after some more calls. *)
Definition called (made : list SPSP.Call) (ctx : SPSP.Ctx) : SPSP.Ctx :=
  {| SPSP.ctx_status := SPSP.ctx_status ctx;
     SPSP.ctx_content_type := SPSP.ctx_content_type ctx;
     SPSP.ctx_body := SPSP.ctx_body ctx;
     SPSP.calls := SPSP.calls ctx ++ made |}.

(** The invalid-receiver answer: status 404 and the error body. *)
Definition invalid_receiver (made : list SPSP.Call) (ctx : SPSP.Ctx) :
  SPSP.Ctx :=
  {| SPSP.ctx_status := Some 404;
     SPSP.ctx_content_type := Some "application/spsp4+json";
     SPSP.ctx_body := Some SPSP.InvalidReceiverError;
     SPSP.calls := SPSP.calls ctx ++ made |}.

(** The answer with credentials: the body makes the status 200 unless one
    was set before. *)
Definition credentials_answer (body : SPSP.Body) (made : list SPSP.Call)
  (ctx : SPSP.Ctx) : SPSP.Ctx :=
  {| SPSP.ctx_status := SPSP.status_with_body (SPSP.ctx_status ctx);
     SPSP.ctx_content_type := Some "application/spsp4+json";
     SPSP.ctx_body := Some body;
     SPSP.calls := SPSP.calls ctx ++ made |}.

(** The account is one the handler turns away as an invalid receiver. *)
Definition turned_away (res : SPSP.AxiosResponse) : bool :=
  Nat.eqb (SPSP.res_status res) 404 ||
  (Nat.eqb (SPSP.res_status res) 200 &&
   SPSP.data_disabled (SPSP.res_data res)).

(** The request passes the three checks of its headers and id. *)
Definition well_formed_request (env : SPSP.Environment)
  (request : SPSP.Request) : bool :=
  valid_user_id env request && accepts_spsp4 request &&
  Bool.eqb (present (SPSP.receipt_nonce request))
           (present (SPSP.receipt_secret request)).

End Spec.

(** * Properties *)

Section Commands.
Import Model Service Spec.

Lemma world_eta (w : World) :
  {| payments := payments w; calls := calls w |} = w.
Proof. by destruct w. Qed.

Lemma patched_id p r : Model.id (patched p r) = Model.id r.
Proof. reflexivity. Qed.

(** Runs the transaction of a guarded command on a row that was found:
    the guard holds and the patch is written, or the body throws and the
    table is put back. *)
Ltac run_guarded Hfound :=
  unfold transaction, findById, mbind, Async_bind;
  rewrite Hfound; case_bool_decide; simpl; [done|];
  unfold throw; by rewrite world_eta.

(** A command on an id that is not in the table. *)
Lemma commands_on_missing_payment w k :
  payments w !! k = None ->
  requotePayment k w = (Rejected (JsError "payment does not exist"), w) /\
  approvePayment k w = (Rejected (JsError "payment does not exist"), w) /\
  cancelPayment k w = (Rejected (JsError "payment does not exist"), w).
Proof.
  intros Hk.
  unfold requotePayment, approvePayment, cancelPayment, transaction, findById,
    mbind, Async_bind.
  rewrite Hk. simpl. by rewrite world_eta.
Qed.

(** What a guarded command does, by the state of the row. *)
Lemma requotePayment_run w k p :
  payments w !! k = Some p ->
  requotePayment k w =
    if bool_decide (state p = Cancelled) then
      (Resolved (patched {| patch_state := Some Inactive;
                            patch_error := None |} p),
       {| payments :=
            <[Model.id p := patched {| patch_state := Some Inactive;
                                       patch_error := None |} p]> (payments w);
          calls := calls w |})
    else (Rejected (WrongState "quote" (state p)), w).
Proof.
  intros Hk. unfold requotePayment. run_guarded Hk.
Qed.

Lemma approvePayment_run w k p :
  payments w !! k = Some p ->
  approvePayment k w =
    if bool_decide (state p = Ready) then
      (Resolved (patched {| patch_state := Some Activated;
                            patch_error := None |} p),
       {| payments :=
            <[Model.id p := patched {| patch_state := Some Activated;
                                       patch_error := None |} p]> (payments w);
          calls := calls w |})
    else (Rejected (WrongState "approve" (state p)), w).
Proof.
  intros Hk. unfold approvePayment. run_guarded Hk.
Qed.

Lemma cancelPayment_run w k p :
  payments w !! k = Some p ->
  cancelPayment k w =
    if bool_decide (state p = Ready) then
      (Resolved (patched {| patch_state := Some Cancelling;
                            patch_error := Some (Lifecycle CancelledByAPI) |} p),
       {| payments :=
            <[Model.id p :=
                patched {| patch_state := Some Cancelling;
                           patch_error := Some (Lifecycle CancelledByAPI) |} p]>
              (payments w);
          calls := calls w |})
    else (Rejected (WrongState "cancel" (state p)), w).
Proof.
  intros Hk. unfold cancelPayment. run_guarded Hk.
Qed.

(** A patch keeps the table keyed by id. *)
Lemma patch_keyed_by_id w payment p :
  keyed_by_id w -> keyed_by_id (snd (patch payment p w)).
Proof.
  intros Hw k r. simpl. rewrite lookup_insert.
  case_decide as Hk; [|by apply Hw].
  intros [= <-]. by rewrite patched_id.
Qed.

End Commands.

Section CommandClaims.
Import Model Service Spec.




(** C2.  [approve(id)] succeeds exactly when the payment's state is [Ready],
    and then moves it to [Activated], writing no column but [state];
    in every other state it fails with the wrong-state error
    and the table is unchanged.  In particular a second [approve] right after
    a successful one fails and leaves the payment as it was, in
    [Activated]. *)
Theorem approve_exactly_when_ready (w : World) (k : string)
  (p : OutgoingPayment) :
  payments w !! k = Some p ->
  Model.id p = k ->
  ((exists p' w', approvePayment k w = (Resolved p', w')) <->
   state p = Ready) /\
  (state p = Ready ->
   exists p',
     approvePayment k w = (Resolved p', with_row k p' w) /\
     state p' = Activated /\
     quote p' = quote p /\
     error p' = error p /\
     same_payment p p' /\
     approvePayment k (with_row k p' w) =
       (Rejected (WrongState "approve" Activated), with_row k p' w) /\
     payments (with_row k p' w) !! k = Some p') /\
  (state p <> Ready ->
   approvePayment k w = (Rejected (WrongState "approve" (state p)), w)).
Proof.
  intros Hk Hid. rewrite (approvePayment_run w k p Hk).
  split; [|split].
  - case_bool_decide as Hs; split; try done.
    + intros _. eauto.
    + intros (p' & w' & [=]).
  - intros Hs. rewrite bool_decide_eq_true_2 by done.
    eexists. split; [by rewrite Hid|].
    split; [done|]. split; [done|]. split; [done|].
    split; [by repeat split|].
    assert (payments
              (with_row k
                 (patched {| patch_state := Some Activated;
                             patch_error := None |} p) w) !! k =
            Some (patched {| patch_state := Some Activated;
                             patch_error := None |} p)) as Hk'
      by (simpl; apply lookup_insert_eq).
    split; [|done].
    by rewrite (approvePayment_run _ k _ Hk').
  - intros Hs. by rewrite bool_decide_eq_false_2.
Qed.

Lemma approve_exactly_when_ready_witness :
  (exists p',
     approvePayment "p1" (Sample.world_with (Sample.row "p1" Ready None)) =
       (Resolved p',
        with_row "p1" p' (Sample.world_with (Sample.row "p1" Ready None))) /\
     state p' = Activated /\
     approvePayment "p1"
       (with_row "p1" p' (Sample.world_with (Sample.row "p1" Ready None))) =
       (Rejected (WrongState "approve" Activated),
        with_row "p1" p' (Sample.world_with (Sample.row "p1" Ready None)))) /\
  approvePayment "p1" (Sample.world_with (Sample.row "p1" Sending None)) =
    (Rejected (WrongState "approve" Sending),
     Sample.world_with (Sample.row "p1" Sending None)).
Proof.
  split.
  - destruct (approve_exactly_when_ready
                (Sample.world_with (Sample.row "p1" Ready None))
                "p1" (Sample.row "p1" Ready None) eq_refl eq_refl)
      as (_ & Hok & _).
    destruct (Hok eq_refl) as (p' & Hrun & Hs & _ & _ & _ & Htwice & _).
    exists p'. auto.
  - destruct (approve_exactly_when_ready
                (Sample.world_with (Sample.row "p1" Sending None))
                "p1" (Sample.row "p1" Sending None) eq_refl eq_refl)
      as (_ & _ & Hfail).
    apply Hfail. discriminate.
Defined.

(** C4.  [cancel(id)] succeeds exactly when the payment's state is [Ready];
    its one patch, committed with the transaction, sets both
    [state = Cancelling] and [error = CancelledByAPI] and keeps the quote and
    every other column; in every other state it fails and the table is
    unchanged. *)
Theorem cancel_exactly_when_ready (w : World) (k : string)
  (p : OutgoingPayment) :
  payments w !! k = Some p ->
  Model.id p = k ->
  ((exists p' w', cancelPayment k w = (Resolved p', w')) <->
   state p = Ready) /\
  (state p = Ready ->
   exists p',
     cancelPayment k w = (Resolved p', with_row k p' w) /\
     state p' = Cancelling /\
     error p' = Some (Lifecycle CancelledByAPI) /\
     quote p' = quote p /\
     same_payment p p') /\
  (state p <> Ready ->
   cancelPayment k w = (Rejected (WrongState "cancel" (state p)), w)).
Proof.
  intros Hk Hid. rewrite (cancelPayment_run w k p Hk).
  split; [|split].
  - case_bool_decide as Hs; split; try done.
    + intros _. eauto.
    + intros (p' & w' & [=]).
  - intros Hs. rewrite bool_decide_eq_true_2 by done.
    eexists. split; [by rewrite Hid|]. by repeat split.
  - intros Hs. by rewrite bool_decide_eq_false_2.
Qed.

Lemma cancel_exactly_when_ready_witness :
  (exists p',
     cancelPayment "p1" (Sample.world_with (Sample.row "p1" Ready None)) =
       (Resolved p',
        with_row "p1" p' (Sample.world_with (Sample.row "p1" Ready None))) /\
     state p' = Cancelling /\
     error p' = Some (Lifecycle CancelledByAPI)) /\
  cancelPayment "p1" (Sample.world_with (Sample.row "p1" Activated None)) =
    (Rejected (WrongState "cancel" Activated),
     Sample.world_with (Sample.row "p1" Activated None)).
Proof.
  split.
  - destruct (cancel_exactly_when_ready
                (Sample.world_with (Sample.row "p1" Ready None))
                "p1" (Sample.row "p1" Ready None) eq_refl eq_refl)
      as (_ & Hok & _).
    destruct (Hok eq_refl) as (p' & Hrun & Hs & He & _).
    exists p'. auto.
  - destruct (cancel_exactly_when_ready
                (Sample.world_with (Sample.row "p1" Activated None))
                "p1" (Sample.row "p1" Activated None) eq_refl eq_refl)
      as (_ & _ & Hfail).
    apply Hfail. discriminate.
Defined.

End CommandClaims.

Section Create.
Import Model Service Spec.

Lemma after_calls_app cs1 cs2 w :
  after_calls cs2 (after_calls cs1 w) = after_calls (cs1 ++ cs2) w.
Proof. unfold after_calls; simpl. by rewrite <- app_assoc. Qed.

(** An intent the guard refuses: a warning, the error, nothing else. *)
Lemma createOutgoingPayment_refused deps options w :
  invalid_parameters options = true ->
  createOutgoingPayment deps options w =
    (Rejected mutually_exclusive,
     after_calls [LoggerWarn "createOutgoingPayment invalid parameters"] w).
Proof.
  intros Hg. unfold createOutgoingPayment. by rewrite Hg.
Qed.

(** An intent the guard lets through: the calls made and the result, by the
    answers of the collaborators. *)
Lemma createOutgoingPayment_run deps options w :
  invalid_parameters options = false ->
  let superAccount := options_superAccountId options in
  let pointer := paymentPointer (options_intent options) in
  let invoice := invoiceUrl (options_intent options) in
  createOutgoingPayment deps options w =
    match connect deps superAccount with
    | Rejected t => (Rejected t, after_calls [PluginConnect superAccount] w)
    | Resolved _ =>
        let setup := [PluginConnect superAccount; SetupPayment pointer invoice]
                     ++ release deps superAccount in
        match Pay_setupPayment deps pointer invoice with
        | Rejected t => (Rejected t, after_calls setup w)
        | Resolved destination =>
            let made := setup ++ [AccountCreate superAccount] in
            match accountService_create deps superAccount with
            | Rejected t => (Rejected t, after_calls made w)
            | Resolved (inl accountError) =>
                (Rejected (JsError ("unable to create source account, err="
                                    +:+ accountError)),
                 after_calls
                   (made ++
                    [LoggerWarn
                       "createOutgoingPayment source account creation failed"])
                   w)
            | Resolved (inr account) =>
                (Resolved (created_row deps options destination account w),
                 with_row (newPaymentId deps (payments w))
                   (created_row deps options destination account w)
                   (after_calls made w))
            end
        end
    end.
Proof.
  intros Hg. simpl. unfold createOutgoingPayment. rewrite Hg.
  unfold mbind, Async_bind, finally, disconnect_and_warn, logger_warn, call,
    release, after_calls, with_row, throw, insertAndFetch, created_row.
  simpl.
  destruct (connect deps _); simpl; [|done].
  destruct (Pay_setupPayment deps _ _) as [destination|t];
    destruct (disconnect deps _); simpl;
    rewrite <- ?app_assoc; simpl; try done;
    destruct (accountService_create deps _) as [[accountError|account]|t'];
    simpl; rewrite <- ?app_assoc; simpl; done.
Qed.

(** What is in the table after a successful insert. *)
Lemma with_row_lookup k p w : payments (with_row k p w) !! k = Some p.
Proof. apply lookup_insert_eq. Qed.

(** C3, as amended.  The intent check of [create] refuses an intent exactly
    when [invoiceUrl] is present together with [paymentPointer] or with
    [amountToSend]; in particular it refuses an intent that has both an
    invoice and a payment pointer with an amount.  A refused intent fails
    with the mutual-exclusion error, persists no payment and reaches no
    collaborator.  Every other intent passes the check, also one with
    neither part: its first effect is to connect the plugin, and it is
    persisted when the plugin connects and the streaming setup and the
    account creation succeed. *)
Theorem create_refuses_mixed_intents (deps : ServiceDependencies)
  (options : CreateOutgoingPaymentOptions) (w : World) :
  let i := options_intent options in
  (invalid_parameters options = true <->
   JS.truthy (invoiceUrl i) = true /\
   (JS.truthy (paymentPointer i) = true \/ amountToSend i <> None)) /\
  (fixed_send_present i = true -> invoice_present i = true ->
   invalid_parameters options = true) /\
  (invalid_parameters options = true ->
   createOutgoingPayment deps options w =
     (Rejected mutually_exclusive,
      after_calls [LoggerWarn "createOutgoingPayment invalid parameters"] w) /\
   payments (snd (createOutgoingPayment deps options w)) = payments w) /\
  (invalid_parameters options = false ->
   (exists rest,
      calls (snd (createOutgoingPayment deps options w)) =
        calls w ++ PluginConnect (options_superAccountId options) :: rest) /\
   forall destination account,
     connect deps (options_superAccountId options) = Resolved () ->
     Pay_setupPayment deps (paymentPointer i) (invoiceUrl i) =
       Resolved destination ->
     accountService_create deps (options_superAccountId options) =
       Resolved (inr account) ->
     exists p,
       fst (createOutgoingPayment deps options w) = Resolved p /\
       payments (snd (createOutgoingPayment deps options w)) !! Model.id p =
         Some p /\
       intent p = i).
Proof.
  simpl. split; [|split; [|split]].
  - unfold invalid_parameters.
    destruct (JS.truthy (invoiceUrl _)), (JS.truthy (paymentPointer _)),
      (amountToSend _); simpl; intuition congruence.
  - unfold invalid_parameters, fixed_send_present, invoice_present.
    intros [-> _]%andb_true_iff ->. done.
  - intros Hg. by rewrite createOutgoingPayment_refused.
  - intros Hg. rewrite (createOutgoingPayment_run deps options w Hg). split.
    + destruct (connect deps _); [|by eexists].
      destruct (Pay_setupPayment deps _ _); [|by eexists].
      destruct (accountService_create deps _) as [[?|?]|?]; simpl;
        rewrite <- ?app_assoc; by eexists.
    + intros destination account -> -> ->. eexists.
      split; [done|]. split; [apply with_row_lookup|].
      simpl. by destruct (options_intent options).
Qed.

Lemma create_refuses_mixed_intents_witness :
  createOutgoingPayment Sample.answering
    (Sample.options_of Sample.invoice_and_amount) Sample.no_payments =
    (Rejected mutually_exclusive,
     after_calls [LoggerWarn "createOutgoingPayment invalid parameters"]
       Sample.no_payments) /\
  exists p,
    fst (createOutgoingPayment Sample.answering
           (Sample.options_of Sample.fixed_send) Sample.no_payments) =
      Resolved p /\
    intent p = Sample.fixed_send.
Proof.
  split.
  - destruct (create_refuses_mixed_intents Sample.answering
                (Sample.options_of Sample.invoice_and_amount)
                Sample.no_payments) as (_ & _ & Hrefused & _).
    apply Hrefused. reflexivity.
  - destruct (create_refuses_mixed_intents Sample.answering
                (Sample.options_of Sample.fixed_send)
                Sample.no_payments) as (_ & _ & _ & Hpassed).
    destruct (Hpassed eq_refl) as [_ Hcreated].
    destruct (Hcreated _ _ eq_refl eq_refl eq_refl) as (p & Hp & _ & Hi).
    exists p. auto.
Defined.

(** C3, as stated, fails: an intent with a payment pointer and no amount has
    neither of the two shapes, so the claim has it rejected and nothing
    persisted; [create] persists it. *)
Lemma create_accepts_pointer_only_counterexample :
  let settled :=
    createOutgoingPayment Sample.answering
      (Sample.options_of Sample.pointer_only) Sample.no_payments in
  exactly_one_present Sample.pointer_only = false /\
  (exists p, fst settled = Resolved p /\
             intent p = Sample.pointer_only /\
             payments (snd settled) !! "p1" = Some p) /\
  payments (snd settled) <> payments Sample.no_payments.
Proof.
  simpl. split; [reflexivity|]. split.
  - eexists. split; [reflexivity|]. split; [reflexivity|].
    vm_compute. reflexivity.
  - intros Heq. apply (f_equal (fun m => m !! "p1")) in Heq.
    vm_compute in Heq. discriminate.
Qed.

(** C6, as amended.  The [destinationAccount] fields are captured by
    [create]: whenever [create] returns a payment, the streaming setup it ran
    has resolved, and the payment, as returned and as stored, carries the
    asset scale, the asset code and the account URL of that destination. *)
Theorem create_captures_destination (deps : ServiceDependencies)
  (options : CreateOutgoingPaymentOptions) (w w' : World)
  (p : OutgoingPayment) :
  createOutgoingPayment deps options w = (Resolved p, w') ->
  exists destination,
    Pay_setupPayment deps (paymentPointer (options_intent options))
      (invoiceUrl (options_intent options)) = Resolved destination /\
    destinationAccount p =
      Some {| destination_scale := destinationAsset_scale destination;
              destination_code := destinationAsset_code destination;
              destination_url := accountUrl destination |} /\
    payments w' !! Model.id p = Some p.
Proof.
  destruct (invalid_parameters options) eqn:Hg.
  - by rewrite createOutgoingPayment_refused.
  - rewrite (createOutgoingPayment_run deps options w Hg).
    destruct (connect deps _); [|done].
    destruct (Pay_setupPayment deps _ _) as [destination|]; [|done].
    destruct (accountService_create deps _) as [[?|account]|]; try done.
    intros [= <- <-]. exists destination.
    split; [done|]. split; [done|]. apply with_row_lookup.
Qed.

Lemma create_captures_destination_witness :
  exists p w',
    createOutgoingPayment Sample.answering
      (Sample.options_of Sample.fixed_send) Sample.no_payments =
      (Resolved p, w') /\
    destinationAccount p = Some Sample.destination_EUR /\
    payments w' !! Model.id p = Some p.
Proof.
  pose proof (createOutgoingPayment_run Sample.answering
                (Sample.options_of Sample.fixed_send) Sample.no_payments
                eq_refl) as Hrun.
  simpl in Hrun. eexists _, _. split; [exact Hrun|].
  destruct (create_captures_destination Sample.answering
              (Sample.options_of Sample.fixed_send) Sample.no_payments
              _ _ Hrun) as (destination & Hsetup & Hd & Hstored).
  injection Hsetup as <-. split; [exact Hd|exact Hstored].
Defined.

(** C6, as stated, fails: right after [create] has returned, the payment
    already has its destination account. *)
Lemma create_sets_destination_counterexample :
  let settled :=
    createOutgoingPayment Sample.answering
      (Sample.options_of Sample.fixed_send) Sample.no_payments in
  exists p,
    fst settled = Resolved p /\
    destinationAccount p = Some Sample.destination_EUR /\
    destinationAccount p <> None /\
    (destinationAccount <$> payments (snd settled) !! "p1") =
      Some (Some Sample.destination_EUR).
Proof.
  simpl. eexists. split; [reflexivity|]. split; [reflexivity|].
  split; [discriminate|]. vm_compute. reflexivity.
Qed.

(** C7, as amended.  [create] does not look at the value of [amountToSend].
    An intent with [amountToSend = 0] fails, with the mutual-exclusion error
    and no payment persisted, when it also names an invoice; without an
    invoice it passes the intent check, and when the plugin connects and the
    streaming setup and the account creation succeed, the payment is
    persisted with [amountToSend = 0]. *)
Theorem create_zero_amount (deps : ServiceDependencies)
  (options : CreateOutgoingPaymentOptions) (w : World) :
  amountToSend (options_intent options) = Some 0%Z ->
  (JS.truthy (invoiceUrl (options_intent options)) = true ->
   createOutgoingPayment deps options w =
     (Rejected mutually_exclusive,
      after_calls [LoggerWarn "createOutgoingPayment invalid parameters"] w) /\
   payments (snd (createOutgoingPayment deps options w)) = payments w) /\
  (JS.truthy (invoiceUrl (options_intent options)) = false ->
   forall destination account,
     connect deps (options_superAccountId options) = Resolved () ->
     Pay_setupPayment deps (paymentPointer (options_intent options))
       (invoiceUrl (options_intent options)) = Resolved destination ->
     accountService_create deps (options_superAccountId options) =
       Resolved (inr account) ->
     exists p,
       fst (createOutgoingPayment deps options w) = Resolved p /\
       amountToSend (intent p) = Some 0%Z /\
       payments (snd (createOutgoingPayment deps options w)) !! Model.id p =
         Some p).
Proof.
  intros Hzero. split.
  - intros Hinvoice.
    assert (invalid_parameters options = true) as Hg.
    { unfold invalid_parameters. rewrite Hinvoice, Hzero. simpl.
      apply orb_true_r. }
    by rewrite createOutgoingPayment_refused.
  - intros Hinvoice destination account Hc Hs Ha.
    assert (invalid_parameters options = false) as Hg.
    { unfold invalid_parameters. by rewrite Hinvoice. }
    rewrite (createOutgoingPayment_run deps options w Hg), Hc, Hs, Ha.
    eexists. split; [done|]. split; [done|]. apply with_row_lookup.
Qed.

Lemma create_zero_amount_witness :
  payments (snd (createOutgoingPayment Sample.answering
                   (Sample.options_of Sample.invoice_and_amount)
                   Sample.no_payments)) = payments Sample.no_payments /\
  exists p,
    fst (createOutgoingPayment Sample.answering
           (Sample.options_of Sample.send_nothing) Sample.no_payments) =
      Resolved p /\
    amountToSend (intent p) = Some 0%Z.
Proof.
  split.
  - destruct (create_zero_amount Sample.answering
                (Sample.options_of Sample.invoice_and_amount)
                Sample.no_payments eq_refl) as [Hrefused _].
    apply Hrefused. reflexivity.
  - destruct (create_zero_amount Sample.answering
                (Sample.options_of Sample.send_nothing)
                Sample.no_payments eq_refl) as [_ Hpassed].
    destruct (Hpassed eq_refl _ _ eq_refl eq_refl eq_refl)
      as (p & Hp & Hamount & _).
    exists p. auto.
Defined.

(** C7, as stated, fails: an intent to send 0 to a payment pointer is
    persisted. *)
Lemma create_accepts_zero_amount_counterexample :
  let settled :=
    createOutgoingPayment Sample.answering
      (Sample.options_of Sample.send_nothing) Sample.no_payments in
  amountToSend Sample.send_nothing = Some 0%Z /\
  (exists p, fst settled = Resolved p /\
             amountToSend (intent p) = Some 0%Z /\
             payments (snd settled) !! "p1" = Some p) /\
  payments (snd settled) <> payments Sample.no_payments.
Proof.
  simpl. split; [reflexivity|]. split.
  - eexists. split; [reflexivity|]. split; [reflexivity|].
    vm_compute. reflexivity.
  - intros Heq. apply (f_equal (fun m => m !! "p1")) in Heq.
    vm_compute in Heq. discriminate.
Qed.

(** C9.  Once the plugin is connected, [create] disconnects it on every
    exit path of the streaming setup: whatever [setupPayment] settles to,
    the calls [create] makes are the connect, the setup and then the
    disconnect, and nothing after that touches the plugin.  When the setup
    fails, [create] fails with the error of the setup and persists
    nothing. *)
Theorem create_disconnects_plugin (deps : ServiceDependencies)
  (options : CreateOutgoingPaymentOptions) (w : World)
  (settled : Outcome Destination) :
  invalid_parameters options = false ->
  connect deps (options_superAccountId options) = Resolved () ->
  Pay_setupPayment deps (paymentPointer (options_intent options))
    (invoiceUrl (options_intent options)) = settled ->
  (exists rest,
     calls (snd (createOutgoingPayment deps options w)) =
       calls w ++
       [ PluginConnect (options_superAccountId options);
         SetupPayment (paymentPointer (options_intent options))
           (invoiceUrl (options_intent options));
         PluginDisconnect (options_superAccountId options) ] ++ rest /\
     forallb (fun c => negb (plugin_call c)) rest = true) /\
  (forall t,
     settled = Rejected t ->
     fst (createOutgoingPayment deps options w) = Rejected t /\
     payments (snd (createOutgoingPayment deps options w)) = payments w).
Proof.
  intros Hg Hc Hs.
  rewrite (createOutgoingPayment_run deps options w Hg), Hc, Hs.
  unfold release. split.
  - destruct settled as [destination|t];
      destruct (disconnect deps _);
      try destruct (accountService_create deps _) as [[?|?]|?];
      simpl; eexists; (split; [reflexivity|reflexivity]).
  - by intros t ->.
Qed.

Lemma create_disconnects_plugin_witness :
  calls (snd (createOutgoingPayment
                (Sample.failing_setup InvalidPaymentPointer)
                (Sample.options_of Sample.fixed_send) Sample.no_payments)) =
    [ PluginConnect "A"; SetupPayment (Some "$x/y") None;
      PluginDisconnect "A" ] /\
  fst (createOutgoingPayment
         (Sample.failing_setup InvalidPaymentPointer)
         (Sample.options_of Sample.fixed_send) Sample.no_payments) =
    Rejected (PayError InvalidPaymentPointer) /\
  exists rest,
    calls (snd (createOutgoingPayment Sample.answering
                  (Sample.options_of Sample.fixed_send)
                  Sample.no_payments)) =
      [ PluginConnect "A"; SetupPayment (Some "$x/y") None;
        PluginDisconnect "A" ] ++ rest.
Proof.
  split; [reflexivity|]. split.
  - destruct (create_disconnects_plugin
                (Sample.failing_setup InvalidPaymentPointer)
                (Sample.options_of Sample.fixed_send) Sample.no_payments
                _ eq_refl eq_refl eq_refl) as [_ Hfails].
    apply (Hfails _ eq_refl).
  - destruct (create_disconnects_plugin Sample.answering
                (Sample.options_of Sample.fixed_send) Sample.no_payments
                _ eq_refl eq_refl eq_refl) as [(rest & Hcalls & _) _].
    exists rest. exact Hcalls.
Defined.

End Create.

Section ResolverClaims.
Import Spec.

Lemma PaymentError_of_string_name (e : PaymentError) :
  PaymentError_of_string (PaymentError_name e) = Some e.
Proof. by destruct e. Qed.

Lemma isPaymentError_PayError (e : PaymentError) :
  Resolvers.isPaymentError (PayError e) = true.
Proof.
  unfold Resolvers.isPaymentError, PayError.
  by rewrite PaymentError_of_string_name.
Qed.

Lemma clientErrors_at_PayError (e : PaymentError) :
  Resolvers.clientErrors_at (PayError e) = Resolvers.clientErrors e.
Proof.
  unfold Resolvers.clientErrors_at, PayError.
  by rewrite PaymentError_of_string_name.
Qed.

(** The table against the lists of the specification. *)
Lemma clientErrors_terminal_client (e : PaymentError) :
  Resolvers.clientErrors e = true <-> In e terminal_client.
Proof.
  unfold terminal_client.
  destruct e; simpl; split; intros H; try done; intuition discriminate.
Qed.

Lemma clientErrors_retryable_server (e : PaymentError) :
  Resolvers.clientErrors e = false <-> In e retryable_server.
Proof.
  unfold retryable_server.
  destruct e; simpl; split; intros H; try done; intuition discriminate.
Qed.

(** C5.  When [create] fails with a [PaymentError], the response of the
    mutation has [success = false] and its code is '400' exactly when the
    error is one of the terminal client errors, and '500' exactly when it is
    one of the retryable or server errors. *)
Theorem create_payment_error_code {SchemaPayment : Type}
  (paymentToGraphql : Model.OutgoingPayment -> SchemaPayment)
  (deps : Service.ServiceDependencies)
  (input : Service.CreateOutgoingPaymentOptions) (w : Service.World)
  (e : PaymentError) :
  fst (Service.createOutgoingPayment deps input w) = Rejected (PayError e) ->
  let response :=
    fst (App.createOutgoingPayment paymentToGraphql deps input w) in
  (Resolvers.code response = "400" <-> In e terminal_client) /\
  (Resolvers.code response = "500" <-> In e retryable_server) /\
  Resolvers.success response = false.
Proof.
  unfold App.createOutgoingPayment.
  destruct (Service.createOutgoingPayment deps input w) as [settled w'].
  cbn [fst]. intros ->.
  cbn [App.then_payment Resolvers.createOutgoingPayment Resolvers.code
       Resolvers.success].
  rewrite isPaymentError_PayError, clientErrors_at_PayError.
  cbn [andb].
  rewrite <- clientErrors_terminal_client, <- clientErrors_retryable_server.
  by destruct (Resolvers.clientErrors e).
Qed.

Lemma create_payment_error_code_witness :
  Resolvers.code
    (fst (App.createOutgoingPayment (fun p => p)
            (Sample.failing_setup InvalidPaymentPointer)
            (Sample.options_of Sample.fixed_send) Sample.no_payments)) = "400"
  /\
  Resolvers.code
    (fst (App.createOutgoingPayment (fun p => p)
            (Sample.failing_setup ConnectorError)
            (Sample.options_of Sample.fixed_send) Sample.no_payments)) = "500".
Proof.
  split.
  - apply (create_payment_error_code (fun p => p)
             (Sample.failing_setup InvalidPaymentPointer)
             (Sample.options_of Sample.fixed_send) Sample.no_payments
             InvalidPaymentPointer eq_refl).
    simpl. auto.
  - apply (create_payment_error_code (fun p => p)
             (Sample.failing_setup ConnectorError)
             (Sample.options_of Sample.fixed_send) Sample.no_payments
             ConnectorError eq_refl).
    simpl. auto.
Defined.

Lemma length_one_exactly_one {Payment : Type}
  (page : Outcome (list Payment)) :
  Nat.eqb (length (Resolvers.page_or_empty page)) 1 = exactly_one page.
Proof. by destruct page as [[|? [|? ?]]|]. Qed.

(** On a non-empty edge list whose first payment is found, the resolver
    answers, and both flags are the one-more probes. *)
Lemma getOutgoingPaymentPageInfo_found {Payment : Type}
  (accountId : Payment -> string) (service : Resolvers.PageService)
  (edge0 : Resolvers.Edge) (rest : list Resolvers.Edge)
  (firstPayment : Payment) :
  Resolvers.get service (Resolvers.node_id edge0) =
    Resolved (Some firstPayment) ->
  Resolvers.getOutgoingPaymentPageInfo accountId service
    (Some (edge0 :: rest)) =
    Resolved
      {| Resolvers.endCursor :=
           Some (Resolvers.cursor (List.last rest edge0));
         Resolvers.hasNextPage :=
           exactly_one
             (Resolvers.getAccountPage service (accountId firstPayment)
                (one_after (Resolvers.cursor (List.last rest edge0))));
         Resolvers.hasPreviousPage :=
           exactly_one
             (Resolvers.getAccountPage service (accountId firstPayment)
                (one_before (Resolvers.cursor edge0)));
         Resolvers.startCursor := Some (Resolvers.cursor edge0) |}.
Proof.
  intros Hget. unfold Resolvers.getOutgoingPaymentPageInfo.
  rewrite Hget. by rewrite !length_one_exactly_one.
Qed.

(** C8.  The [pageInfo] resolver decides paging by one-more probes.  For an
    edge list that is missing or empty both flags are false.  For a non-empty
    edge list the resolver returns [hasNextPage = true] exactly when the
    first edge's payment is found and the page of size 1 requested, for that
    payment's account, after the cursor of the last edge is answered with
    exactly one payment; it returns [hasPreviousPage = true] exactly when
    the same holds of the page of size 1 requested before the cursor of the
    first edge.  Whenever the first edge's payment is found the resolver
    answers, with the cursors of the first and of the last edge. *)
Theorem pageInfo_one_more_probe {Payment : Type}
  (accountId : Payment -> string) (service : Resolvers.PageService) :
  let pageInfo := Resolvers.getOutgoingPaymentPageInfo accountId service in
  pageInfo None = Resolved no_pages /\
  pageInfo (Some []) = Resolved no_pages /\
  forall (edge0 : Resolvers.Edge) (rest : list Resolvers.Edge),
    let firstEdge := Resolvers.cursor edge0 in
    let lastEdge := Resolvers.cursor (List.last rest edge0) in
    ((exists info, pageInfo (Some (edge0 :: rest)) = Resolved info /\
                   Resolvers.hasNextPage info = true) <->
     (exists firstPayment,
        Resolvers.get service (Resolvers.node_id edge0) =
          Resolved (Some firstPayment) /\
        exactly_one
          (Resolvers.getAccountPage service (accountId firstPayment)
             (one_after lastEdge)) = true)) /\
    ((exists info, pageInfo (Some (edge0 :: rest)) = Resolved info /\
                   Resolvers.hasPreviousPage info = true) <->
     (exists firstPayment,
        Resolvers.get service (Resolvers.node_id edge0) =
          Resolved (Some firstPayment) /\
        exactly_one
          (Resolvers.getAccountPage service (accountId firstPayment)
             (one_before firstEdge)) = true)) /\
    (forall firstPayment,
       Resolvers.get service (Resolvers.node_id edge0) =
         Resolved (Some firstPayment) ->
       exists info,
         pageInfo (Some (edge0 :: rest)) = Resolved info /\
         Resolvers.startCursor info = Some firstEdge /\
         Resolvers.endCursor info = Some lastEdge).
Proof.
  cbn zeta. split; [done|]. split; [done|].
  intros edge0 rest.
  destruct (Resolvers.get service (Resolvers.node_id edge0))
    as [[firstPayment|]|t] eqn:Hget.
  - rewrite (getOutgoingPaymentPageInfo_found accountId service edge0 rest
               firstPayment Hget).
    split; [|split].
    + split.
      * intros (info & [= <-] & Hnext). by exists firstPayment.
      * intros (p & [= <-] & Hone). eexists. split; [done|]. done.
    + split.
      * intros (info & [= <-] & Hprev). by exists firstPayment.
      * intros (p & [= <-] & Hone). eexists. split; [done|]. done.
    + intros p [= <-]. eexists. by split.
  - unfold Resolvers.getOutgoingPaymentPageInfo. rewrite Hget.
    split; [|split].
    + split; [by intros (info & [=] & _)|by intros (p & [=] & _)].
    + split; [by intros (info & [=] & _)|by intros (p & [=] & _)].
    + by intros p [=].
  - unfold Resolvers.getOutgoingPaymentPageInfo. rewrite Hget.
    split; [|split].
    + split; [by intros (info & [=] & _)|by intros (p & [=] & _)].
    + split; [by intros (info & [=] & _)|by intros (p & [=] & _)].
    + by intros p [=].
Qed.

Lemma pageInfo_one_more_probe_witness :
  Resolvers.getOutgoingPaymentPageInfo (fun _ => "acct")
    Sample.three_payments (Some [Sample.edge "p1"; Sample.edge "p2"]) =
    Resolved {| Resolvers.endCursor := Some "p2";
                Resolvers.hasNextPage := true;
                Resolvers.hasPreviousPage := false;
                Resolvers.startCursor := Some "p1" |} /\
  exists info,
    Resolvers.getOutgoingPaymentPageInfo (fun _ => "acct")
      Sample.three_payments (Some [Sample.edge "p1"; Sample.edge "p2"]) =
      Resolved info /\
    Resolvers.hasNextPage info = true.
Proof.
  split; [reflexivity|].
  destruct (pageInfo_one_more_probe (fun _ : string => "acct")
              Sample.three_payments) as (_ & _ & Hedges).
  destruct (Hedges (Sample.edge "p1") [Sample.edge "p2"]) as ([_ Hnext] & _).
  apply Hnext. exists "p1". split; reflexivity.
Defined.

End ResolverClaims.

Section SpspClaims.
Import Spec SPSP.

(** C10, as amended.  For every SPSP request whose accept header includes
    [application/spsp4+json]: if exactly one of the receipt-nonce and
    receipt-secret headers is present with a non-empty value, the handler
    responds 400 and does nothing else, so no credentials are issued.  For
    every request, credentials that are issued carry
    [receipts_enabled = true] when both headers are present with a non-empty
    value and [receipts_enabled = false] when neither is; and they are issued,
    with the receipt setup of the two headers and with status 200 unless a
    status was set before, whenever the id is a version 4 UUID, the accept
    header fits, the headers come together, the user's account answers 200
    and is not disabled, STREAM is enabled for it and the STREAM server
    generates credentials. *)
Theorem spsp_receipt_headers (env : Environment) (request : Request)
  (ctx : Ctx) :
  (accepts_spsp4 request = true ->
   present (receipt_nonce request) <> present (receipt_secret request) ->
   exists message,
     handleSPSP env request ctx = (Rejected (HttpError 400 message), ctx)) /\
  (forall ctx' destination_account shared_secret receipts_enabled,
     handleSPSP env request ctx = (Resolved (), ctx') ->
     ctx_body ctx' =
       Some (SpspResponse destination_account shared_secret
               receipts_enabled) ->
     (present (receipt_nonce request) = true /\
      present (receipt_secret request) = true /\
      receipts_enabled = true) \/
     (present (receipt_nonce request) = false /\
      present (receipt_secret request) = false /\
      receipts_enabled = false)) /\
  (forall user res credentials,
     valid_user_id env request = true ->
     accepts_spsp4 request = true ->
     present (receipt_nonce request) = present (receipt_secret request) ->
     User_findById env (params_id request) = Resolved (Some user) ->
     axios_get env (user_accountId user) = Resolved res ->
     res_status res = 200 ->
     data_disabled (res_data res) = false ->
     data_stream_enabled (res_data res) = true ->
     generateCredentials env (user_accountId user) (receipt_setup request)
       (data_asset (res_data res)) = Resolved credentials ->
     handleSPSP env request ctx =
       (Resolved (),
        {| ctx_status := status_with_body (ctx_status ctx);
           ctx_content_type := Some "application/spsp4+json";
           ctx_body :=
             Some (SpspResponse (ilpAddress credentials)
                     (base64url env (sharedSecret credentials))
                     (present (receipt_nonce request) &&
                      present (receipt_secret request)));
           calls :=
             calls ctx ++
             [ UserFindById (params_id request);
               AxiosGet (user_accountId user);
               GenerateCredentials (user_accountId user)
                 (receipt_setup request) (data_asset (res_data res)) ] |})).
Proof.
  unfold accepts_spsp4, valid_user_id, receipt_setup, present.
  split; [|split].
  - intros Haccept Hone. unfold handleSPSP, ctx_throw, throw.
    destruct (negb (uuid_validate env _) || _); [by eexists|].
    rewrite Haccept. cbn [negb].
    destruct (JS.truthy (receipt_nonce request)),
      (JS.truthy (receipt_secret request)); try done; by eexists.
  - intros ctx' da ss re. unfold handleSPSP, ctx_throw, throw.
    destruct (negb (uuid_validate env _) || _); [done|].
    destruct (negb (JS.includes _ _)); [done|].
    destruct (JS.truthy (receipt_nonce request)) eqn:Hn,
      (JS.truthy (receipt_secret request)) eqn:Hs;
      cbn [negb Bool.eqb andb]; try done;
      unfold mbind, Async_bind, mret, Async_ret, call, set_status,
        set_content_type, set_body;
      (destruct (User_findById env _) as [[user|]|]; [| |done]);
      try (destruct (axios_get env _) as [res|]; [|done]);
      repeat match goal with
             | |- context [if ?b then _ else _] => destruct b
             end;
      try destruct (generateCredentials env _ _ _);
      cbn; intros [= <-]; cbn; intros [= <- <- <-]; auto.
  - intros user res credentials [Hv1 Hv2]%andb_true_iff Haccept Hboth Hu Hr
      H200 Hdis Hen Hc.
    assert (negb (Bool.eqb (negb (JS.truthy (receipt_nonce request)))
                     (negb (JS.truthy (receipt_secret request)))) = false)
      as Hguard.
    { rewrite Hboth.
      destruct (JS.truthy (receipt_secret request)); reflexivity. }
    unfold handleSPSP. rewrite Hv1, Hv2, Haccept. cbn [negb orb].
    rewrite Hguard.
    unfold mbind, Async_bind, mret, Async_ret, call.
    rewrite Hu, Hr, H200, Hdis, Hen. cbn [Nat.eqb negb orb andb].
    rewrite Hc. cbn. by rewrite <- !app_assoc.
Qed.

Lemma spsp_receipt_headers_witness :
  (exists message,
     handleSPSP Sample.spsp_env
       (Sample.spsp_request "application/spsp4+json" (Some "bm9uY2U=") None)
       fresh_ctx =
       (Rejected (HttpError 400 message), fresh_ctx)) /\
  ctx_body
    (snd (handleSPSP Sample.spsp_env
            (Sample.spsp_request "application/spsp4+json"
               (Some "bm9uY2U=") (Some "c2VjcmV0"))
            fresh_ctx)) =
    Some (SpspResponse "test.rafiki.acct" "c2VjcmV0" true).
Proof.
  split.
  - destruct (spsp_receipt_headers Sample.spsp_env
                (Sample.spsp_request "application/spsp4+json"
                   (Some "bm9uY2U=") None)
                fresh_ctx) as (Hone & _ & _).
    apply Hone; [reflexivity|discriminate].
  - destruct (spsp_receipt_headers Sample.spsp_env
                (Sample.spsp_request "application/spsp4+json"
                   (Some "bm9uY2U=") (Some "c2VjcmV0"))
                fresh_ctx) as (_ & _ & Hissued).
    rewrite (Hissued _ _ _ eq_refl eq_refl eq_refl eq_refl eq_refl eq_refl
               eq_refl eq_refl eq_refl).
    reflexivity.
Defined.

(** C10, as stated, fails, at two requests.  A request with a receipt
    nonce and no receipt secret whose accept header does not include
    [application/spsp4+json] is answered 406, not 400: the accept header is
    checked first.  A request that accepts [application/spsp4+json] and has
    the receipt-nonce header, with an empty value, and no receipt-secret
    header is not answered 400 either: an empty value counts as no header,
    and credentials are issued with [receipts_enabled = false]. *)
Lemma spsp_receipt_headers_counterexample :
  (let request := Sample.spsp_request "text/html" (Some "bm9uY2U=") None in
   receipt_nonce request = Some "bm9uY2U=" /\
   receipt_secret request = None /\
   handleSPSP Sample.spsp_env request fresh_ctx =
     (Rejected
        (HttpError 406
           (Some
              "Failed to generate credentials: invalid accept: must support application/spsp4+json")),
      fresh_ctx) /\
   forall message,
     fst (handleSPSP Sample.spsp_env request fresh_ctx) <>
     Rejected (HttpError 400 message)) /\
  (let request :=
     Sample.spsp_request "application/spsp4+json" (Some "") None in
   receipt_nonce request = Some "" /\
   receipt_secret request = None /\
   fst (handleSPSP Sample.spsp_env request fresh_ctx) = Resolved () /\
   ctx_body (snd (handleSPSP Sample.spsp_env request fresh_ctx)) =
     Some (SpspResponse "test.rafiki.acct" "c2VjcmV0" false) /\
   existsb issued (calls (snd (handleSPSP Sample.spsp_env request fresh_ctx)))
     = true).
Proof.
  split.
  - simpl. split; [reflexivity|]. split; [reflexivity|].
    split; [reflexivity|]. intros message. discriminate.
  - simpl. repeat split; reflexivity.
Qed.

End SpspClaims.

Section Invariants.
Import Model Service Spec.

(** [create] keeps the table keyed by id. *)
Lemma createOutgoingPayment_keyed_by_id deps options w :
  keyed_by_id w ->
  keyed_by_id (snd (createOutgoingPayment deps options w)).
Proof.
  intros Hw. destruct (invalid_parameters options) eqn:Hg.
  - by rewrite createOutgoingPayment_refused.
  - rewrite (createOutgoingPayment_run deps options w Hg).
    destruct (connect deps _); [|done].
    destruct (Pay_setupPayment deps _ _); [|done].
    destruct (accountService_create deps _) as [[?|account]|]; try done.
    intros k p. simpl. rewrite lookup_insert.
    case_decide as Hk; [|by apply Hw]. by intros [= <-].
Qed.

(** So do the three guarded commands. *)
Lemma commands_keyed_by_id w k :
  keyed_by_id w ->
  keyed_by_id (snd (requotePayment k w)) /\
  keyed_by_id (snd (approvePayment k w)) /\
  keyed_by_id (snd (cancelPayment k w)).
Proof.
  intros Hw. destruct (payments w !! k) as [p|] eqn:Hk.
  - rewrite (requotePayment_run w k p Hk), (approvePayment_run w k p Hk),
      (cancelPayment_run w k p Hk).
    repeat split; case_bool_decide; try done;
      apply (patch_keyed_by_id w p _ Hw).
  - unfold requotePayment, approvePayment, cancelPayment, transaction,
      findById, mbind, Async_bind. rewrite Hk. simpl.
    by rewrite world_eta.
Qed.

End Invariants.

(** * Further properties of the service *)

Section ServiceProperties.
Import Model Service Spec.

(** What a resolved [create] has gone through. *)
Lemma createOutgoingPayment_resolved deps options w p w' :
  createOutgoingPayment deps options w = (Resolved p, w') ->
  exists destination account,
    invalid_parameters options = false /\
    connect deps (options_superAccountId options) = Resolved () /\
    Pay_setupPayment deps (paymentPointer (options_intent options))
      (invoiceUrl (options_intent options)) = Resolved destination /\
    accountService_create deps (options_superAccountId options) =
      Resolved (inr account) /\
    p = created_row deps options destination account w /\
    w' = with_row (newPaymentId deps (payments w)) p
           (after_calls (setup_calls deps options ++
                         [AccountCreate (options_superAccountId options)]) w).
Proof.
  destruct (invalid_parameters options) eqn:Hg.
  - by rewrite createOutgoingPayment_refused.
  - rewrite (createOutgoingPayment_run deps options w Hg).
    destruct (connect deps _) as [[]|]; [|done].
    destruct (Pay_setupPayment deps _ _) as [destination|]; [|done].
    destruct (accountService_create deps _) as [[?|account]|]; try done.
    intros [= <- <-]. by exists destination, account.
Qed.

(** X1.  [create] resolves exactly when the intent passes the check, the
    plugin connects, the streaming setup resolves and the account service
    returns an account. *)
Theorem create_resolves_iff (deps : ServiceDependencies)
  (options : CreateOutgoingPaymentOptions) (w : World) :
  (exists p w', createOutgoingPayment deps options w = (Resolved p, w')) <->
  invalid_parameters options = false /\
  connect deps (options_superAccountId options) = Resolved () /\
  (exists destination,
     Pay_setupPayment deps (paymentPointer (options_intent options))
       (invoiceUrl (options_intent options)) = Resolved destination) /\
  (exists account,
     accountService_create deps (options_superAccountId options) =
       Resolved (inr account)).
Proof.
  split.
  - intros (p & w' & Hrun).
    destruct (createOutgoingPayment_resolved _ _ _ _ _ Hrun)
      as (destination & account & Hg & Hc & Hs & Ha & _).
    eauto 10.
  - intros (Hg & Hc & [destination Hs] & [account Ha]).
    rewrite (createOutgoingPayment_run deps options w Hg), Hc, Hs, Ha.
    eauto.
Qed.

Lemma create_resolves_iff_witness :
  exists p w',
    createOutgoingPayment Sample.answering
      (Sample.options_of Sample.fixed_send) Sample.no_payments =
      (Resolved p, w').
Proof.
  apply (create_resolves_iff Sample.answering
           (Sample.options_of Sample.fixed_send) Sample.no_payments).
  split; [reflexivity|]. split; [reflexivity|]. split; by eexists.
Defined.

(** X2.  A [create] that fails, for whatever reason, persists nothing: the
    table of payments is the one it started from. *)
Theorem create_failure_persists_nothing (deps : ServiceDependencies)
  (options : CreateOutgoingPaymentOptions) (w w' : World) (t : Thrown) :
  createOutgoingPayment deps options w = (Rejected t, w') ->
  payments w' = payments w.
Proof.
  destruct (invalid_parameters options) eqn:Hg.
  - rewrite createOutgoingPayment_refused by done. by intros [= _ <-].
  - rewrite (createOutgoingPayment_run deps options w Hg).
    destruct (connect deps _); [|by intros [= _ <-]].
    destruct (Pay_setupPayment deps _ _); [|by intros [= _ <-]].
    destruct (accountService_create deps _) as [[?|?]|];
      try done; by intros [= _ <-].
Qed.

Lemma create_failure_persists_nothing_witness :
  payments
    (snd (createOutgoingPayment (Sample.failing_setup ConnectorError)
            (Sample.options_of Sample.fixed_send)
            (Sample.world_with (Sample.row "p0" Ready None)))) =
  payments (Sample.world_with (Sample.row "p0" Ready None)).
Proof.
  apply (create_failure_persists_nothing
           (Sample.failing_setup ConnectorError)
           (Sample.options_of Sample.fixed_send)
           (Sample.world_with (Sample.row "p0" Ready None)) _
           (PayError ConnectorError)).
  apply (createOutgoingPayment_run (Sample.failing_setup ConnectorError)
           (Sample.options_of Sample.fixed_send)
           (Sample.world_with (Sample.row "p0" Ready None)) eq_refl).
Defined.

(** X3.  [create] calls its collaborators in order and stops at the first
    that fails.  When the plugin does not connect, the connect is the only
    call: there is no setup, no disconnect and no account.  The account
    service is called only after the streaming setup has resolved and the
    plugin has been told to disconnect. *)
Theorem create_calls_in_order (deps : ServiceDependencies)
  (options : CreateOutgoingPaymentOptions) (w : World) (made : list Call) :
  calls (snd (createOutgoingPayment deps options w)) = calls w ++ made ->
  (forall t,
     invalid_parameters options = false ->
     connect deps (options_superAccountId options) = Rejected t ->
     made = [PluginConnect (options_superAccountId options)] /\
     fst (createOutgoingPayment deps options w) = Rejected t) /\
  (In (AccountCreate (options_superAccountId options)) made ->
   (exists destination,
      Pay_setupPayment deps (paymentPointer (options_intent options))
        (invoiceUrl (options_intent options)) = Resolved destination) /\
   exists rest,
     made = setup_calls deps options ++
            AccountCreate (options_superAccountId options) :: rest /\
     forallb (fun c => negb (plugin_call c)) rest = true).
Proof.
  destruct (invalid_parameters options) eqn:Hg.
  - rewrite createOutgoingPayment_refused by done. simpl.
    intros <-%app_inv_head. split; [done|]. intros [|[]]; done.
  - rewrite (createOutgoingPayment_run deps options w Hg).
    unfold setup_calls.
    destruct (connect deps _) as [[]|t0]; simpl.
    2: { intros <-%app_inv_head. split.
         - by intros t _ [= <-].
         - intros [|[]]; done. }
    destruct (Pay_setupPayment deps _ _) as [destination|t0]; simpl.
    2: { intros <-%app_inv_head. split; [done|].
         unfold release. destruct (disconnect deps _); simpl;
           intros Hin; repeat destruct Hin as [|Hin]; done. }
    destruct (accountService_create deps _) as [[accountError|account]|t0];
      simpl; intros <-%app_inv_head; (split; [done|]); intros _;
      (split; [by eexists|]).
    + exists [LoggerWarn
                "createOutgoingPayment source account creation failed"].
      split; [|done]. simpl. by rewrite <- ?app_assoc.
    + exists []. split; [|done]. simpl. by rewrite <- ?app_assoc.
    + exists []. split; [|done]. simpl. by rewrite <- ?app_assoc.
Qed.

Lemma create_calls_in_order_witness :
  calls (snd (createOutgoingPayment Sample.no_connection
                (Sample.options_of Sample.fixed_send) Sample.no_payments)) =
    [PluginConnect "A"] /\
  fst (createOutgoingPayment Sample.no_connection
         (Sample.options_of Sample.fixed_send) Sample.no_payments) =
    Rejected (JsError "connect failed").
Proof.
  split; [reflexivity|].
  destruct (create_calls_in_order Sample.no_connection
              (Sample.options_of Sample.fixed_send) Sample.no_payments
              [PluginConnect "A"] eq_refl) as [Hconnect _].
  apply (Hconnect _ eq_refl eq_refl).
Defined.

(** X4.  A payment that [create] has returned is the one [get], and the
    [outgoingPayment] query, find under its id, in the initial state, with no attempts, quote or error and with
    the intent it was created from; the rows under all other ids are the ones
    that were there. *)
Theorem create_then_get {SchemaPayment : Type}
  (paymentToGraphql : OutgoingPayment -> SchemaPayment)
  (deps : ServiceDependencies)
  (options : CreateOutgoingPaymentOptions) (w w' : World)
  (p : OutgoingPayment) :
  createOutgoingPayment deps options w = (Resolved p, w') ->
  getOutgoingPayment (Model.id p) w' = (Resolved (Some p), w') /\
  App.getOutgoingPayment paymentToGraphql (Model.id p) w' =
    Resolved (paymentToGraphql p) /\
  state p = Inactive /\
  stateAttempts p = 0 /\
  quote p = None /\
  error p = None /\
  intent p = options_intent options /\
  superAccountId p = options_superAccountId options /\
  forall k, k <> Model.id p -> payments w' !! k = payments w !! k.
Proof.
  intros Hrun.
  destruct (createOutgoingPayment_resolved _ _ _ _ _ Hrun)
    as (destination & account & _ & _ & _ & _ & -> & ->).
  unfold App.getOutgoingPayment, getOutgoingPayment.
  rewrite with_row_lookup.
  repeat split.
  - simpl. by destruct (options_intent options).
  - intros k Hk. simpl in *. by rewrite lookup_insert_ne.
Qed.

Lemma create_then_get_witness :
  exists p w',
    createOutgoingPayment Sample.answering
      (Sample.options_of Sample.fixed_send)
      (Sample.world_with (Sample.row "p0" Ready None)) = (Resolved p, w') /\
    getOutgoingPayment (Model.id p) w' = (Resolved (Some p), w') /\
    payments w' !! "p0" = Some (Sample.row "p0" Ready None).
Proof.
  pose proof (createOutgoingPayment_run Sample.answering
                (Sample.options_of Sample.fixed_send)
                (Sample.world_with (Sample.row "p0" Ready None))
                eq_refl) as Hrun.
  simpl in Hrun. eexists _, _. split; [exact Hrun|].
  destruct (create_then_get (fun payment => payment) _ _ _ _ _ Hrun)
    as (Hget & _ & _ & _ & _ & _ & _ & _ & Hothers).
  split; [exact Hget|]. rewrite Hothers; [reflexivity|discriminate].
Defined.

(** X5.  A payment fresh from [create] accepts no command: [approve],
    [cancel] and [requote] on its id each fail with the wrong-state error for
    the initial state and change nothing. *)
Theorem created_payment_accepts_no_command (deps : ServiceDependencies)
  (options : CreateOutgoingPaymentOptions) (w w' : World)
  (p : OutgoingPayment) :
  createOutgoingPayment deps options w = (Resolved p, w') ->
  approvePayment (Model.id p) w' =
    (Rejected (WrongState "approve" Inactive), w') /\
  cancelPayment (Model.id p) w' =
    (Rejected (WrongState "cancel" Inactive), w') /\
  requotePayment (Model.id p) w' =
    (Rejected (WrongState "quote" Inactive), w').
Proof.
  intros Hrun.
  destruct (createOutgoingPayment_resolved _ _ _ _ _ Hrun)
    as (destination & account & _ & _ & _ & _ & -> & ->).
  pose proof (with_row_lookup
                (newPaymentId deps (payments w))
                (created_row deps options destination account w)
                (after_calls
                   (setup_calls deps options ++
                    [AccountCreate (options_superAccountId options)]) w))
    as Hfound.
  change (Model.id (created_row deps options destination account w))
    with (newPaymentId deps (payments w)).
  by rewrite (approvePayment_run _ _ _ Hfound),
    (cancelPayment_run _ _ _ Hfound), (requotePayment_run _ _ _ Hfound).
Qed.

Lemma created_payment_accepts_no_command_witness :
  exists p w',
    createOutgoingPayment Sample.answering
      (Sample.options_of Sample.fixed_send) Sample.no_payments =
      (Resolved p, w') /\
    approvePayment (Model.id p) w' =
      (Rejected (WrongState "approve" Inactive), w').
Proof.
  pose proof (createOutgoingPayment_run Sample.answering
                (Sample.options_of Sample.fixed_send) Sample.no_payments
                eq_refl) as Hrun.
  simpl in Hrun. eexists _, _. split; [exact Hrun|].
  apply (created_payment_accepts_no_command _ _ _ _ _ Hrun).
Defined.

(** What a command leaves behind: the world it started from, or that world
    with the row it found replaced. *)
Lemma command_worlds w k :
  let left_by (w' : World) :=
    w' = w \/
    exists p p', payments w !! k = Some p /\
                 w' = with_row (Model.id p) p' w in
  left_by (snd (requotePayment k w)) /\
  left_by (snd (approvePayment k w)) /\
  left_by (snd (cancelPayment k w)).
Proof.
  simpl. destruct (payments w !! k) as [p|] eqn:Hk.
  - rewrite (requotePayment_run w k p Hk), (approvePayment_run w k p Hk),
      (cancelPayment_run w k p Hk).
    repeat split; case_bool_decide; simpl; eauto.
  - destruct (commands_on_missing_payment w k Hk) as (-> & -> & ->). auto.
Qed.

(** X6.  A command that fails has changed nothing: whatever the error, the
    table and the log of calls are the ones it started from. *)
Theorem failed_command_changes_nothing (w w' : World) (k : string)
  (t : Thrown) :
  (requotePayment k w = (Rejected t, w') -> w' = w) /\
  (approvePayment k w = (Rejected t, w') -> w' = w) /\
  (cancelPayment k w = (Rejected t, w') -> w' = w).
Proof.
  destruct (payments w !! k) as [p|] eqn:Hk.
  - rewrite (requotePayment_run w k p Hk), (approvePayment_run w k p Hk),
      (cancelPayment_run w k p Hk).
    repeat split; case_bool_decide; by intros [= _ <-].
  - destruct (commands_on_missing_payment w k Hk) as (-> & -> & ->).
    repeat split; by intros [= _ <-].
Qed.

Lemma failed_command_changes_nothing_witness :
  snd (cancelPayment "p1" (Sample.world_with (Sample.row "p1" Sending None))) =
  Sample.world_with (Sample.row "p1" Sending None).
Proof.
  destruct (failed_command_changes_nothing
              (Sample.world_with (Sample.row "p1" Sending None))
              (snd (cancelPayment "p1"
                      (Sample.world_with (Sample.row "p1" Sending None))))
              "p1" (WrongState "cancel" Sending)) as (_ & _ & Hcancel).
  apply Hcancel. reflexivity.
Defined.

(** X7.  On a table keyed by id, a command on the id [k] touches no other
    row, adds and removes no id, and calls nothing outside the database,
    whether it succeeds or fails. *)
Theorem commands_touch_one_row (w : World) (k : string) :
  keyed_by_id w ->
  let framed (w' : World) :=
    (forall k', k' <> k -> payments w' !! k' = payments w !! k') /\
    dom (payments w') = dom (payments w) /\
    calls w' = calls w in
  framed (snd (requotePayment k w)) /\
  framed (snd (approvePayment k w)) /\
  framed (snd (cancelPayment k w)).
Proof.
  intros Hw. simpl.
  assert (forall w',
            (w' = w \/
             exists p p', payments w !! k = Some p /\
                          w' = with_row (Model.id p) p' w) ->
            (forall k', k' <> k -> payments w' !! k' = payments w !! k') /\
            dom (payments w') = dom (payments w) /\
            calls w' = calls w) as Hframe.
  { intros w' [->|(p & p' & Hk & ->)]; [done|].
    rewrite (Hw k p Hk). simpl. repeat split.
    - intros k' Hk'. by rewrite lookup_insert_ne.
    - apply dom_insert_lookup_L. by eexists. }
  destruct (command_worlds w k) as (Hr & Ha & Hc).
  auto.
Qed.

Lemma commands_touch_one_row_witness :
  payments
    (snd (cancelPayment "p1"
            (with_row "p2" (Sample.row "p2" Cancelled None)
               (Sample.world_with (Sample.row "p1" Ready None))))) !! "p2" =
  Some (Sample.row "p2" Cancelled None).
Proof.
  assert (keyed_by_id
            (with_row "p2" (Sample.row "p2" Cancelled None)
               (Sample.world_with (Sample.row "p1" Ready None)))) as Hkeyed.
  { intros k p. simpl. rewrite lookup_insert. case_decide as H2.
    - intros [= <-]. exact H2.
    - rewrite lookup_singleton. case_decide as H1; [|discriminate].
      intros [= <-]. exact H1. }
  destruct (commands_touch_one_row _ "p1" Hkeyed) as (_ & _ & Hcancel & _).
  rewrite Hcancel; [reflexivity|discriminate].
Defined.

(** X8.  A payment in the initial state or in [Activated], [Sending],
    [Cancelling] or [Completed] is closed to the three commands: each of
    them fails with its wrong-state error and changes nothing. *)
Theorem closed_states_refuse_commands (w : World) (k : string)
  (p : OutgoingPayment) :
  payments w !! k = Some p ->
  closed_to_commands (state p) = true ->
  requotePayment k w = (Rejected (WrongState "quote" (state p)), w) /\
  approvePayment k w = (Rejected (WrongState "approve" (state p)), w) /\
  cancelPayment k w = (Rejected (WrongState "cancel" (state p)), w).
Proof.
  intros Hk Hclosed.
  rewrite (requotePayment_run w k p Hk), (approvePayment_run w k p Hk),
    (cancelPayment_run w k p Hk).
  by destruct (state p).
Qed.

Lemma closed_states_refuse_commands_witness :
  requotePayment "p1" (Sample.world_with (Sample.row "p1" Completed None)) =
    (Rejected (WrongState "quote" Completed),
     Sample.world_with (Sample.row "p1" Completed None)) /\
  approvePayment "p1" (Sample.world_with (Sample.row "p1" Completed None)) =
    (Rejected (WrongState "approve" Completed),
     Sample.world_with (Sample.row "p1" Completed None)).
Proof.
  destruct (closed_states_refuse_commands
              (Sample.world_with (Sample.row "p1" Completed None))
              "p1" (Sample.row "p1" Completed None) eq_refl eq_refl)
    as (Hrequote & Happrove & _).
  split; [exact Hrequote|exact Happrove].
Defined.

(** X9.  [approve] and [cancel] exclude each other.  On a [Ready] payment
    either succeeds; after [approve] a [cancel] fails on [Activated]; after
    [cancel] an [approve], a second [cancel] and a [requote] all fail on
    [Cancelling].  The failing calls change nothing. *)
Theorem approve_and_cancel_exclude (w : World) (k : string)
  (p : OutgoingPayment) :
  payments w !! k = Some p ->
  Model.id p = k ->
  state p = Ready ->
  (exists p1 w1,
     approvePayment k w = (Resolved p1, w1) /\
     cancelPayment k w1 = (Rejected (WrongState "cancel" Activated), w1)) /\
  (exists p2 w2,
     cancelPayment k w = (Resolved p2, w2) /\
     approvePayment k w2 =
       (Rejected (WrongState "approve" Cancelling), w2) /\
     cancelPayment k w2 = (Rejected (WrongState "cancel" Cancelling), w2) /\
     requotePayment k w2 = (Rejected (WrongState "quote" Cancelling), w2)).
Proof.
  intros Hk Hid Hs. split.
  - rewrite (approvePayment_run w k p Hk), Hs, Hid.
    eexists _, _. split; [done|].
    by rewrite (cancelPayment_run _ k _ (lookup_insert_eq _ _ _)).
  - rewrite (cancelPayment_run w k p Hk), Hs, Hid.
    eexists _, _. split; [done|].
    by rewrite (approvePayment_run _ k _ (lookup_insert_eq _ _ _)),
      (cancelPayment_run _ k _ (lookup_insert_eq _ _ _)),
      (requotePayment_run _ k _ (lookup_insert_eq _ _ _)).
Qed.

Lemma approve_and_cancel_exclude_witness :
  exists p2 w2,
    cancelPayment "p1" (Sample.world_with (Sample.row "p1" Ready None)) =
      (Resolved p2, w2) /\
    approvePayment "p1" w2 =
      (Rejected (WrongState "approve" Cancelling), w2).
Proof.
  destruct (approve_and_cancel_exclude
              (Sample.world_with (Sample.row "p1" Ready None))
              "p1" (Sample.row "p1" Ready None) eq_refl eq_refl eq_refl)
    as (_ & p2 & w2 & Hcancel & Happrove & _).
  exists p2, w2. split; [exact Hcancel|exact Happrove].
Defined.

(** X10.  On an id the table does not have, [get] finds nothing, the
    [outgoingPayment] query throws 'payment does not exist', and [requote],
    [approve] and [cancel] each fail with that same error; nothing is
    changed. *)
Theorem unknown_payment_fails {SchemaPayment : Type}
  (paymentToGraphql : OutgoingPayment -> SchemaPayment) (w : World)
  (k : string) :
  payments w !! k = None ->
  getOutgoingPayment k w = (Resolved None, w) /\
  App.getOutgoingPayment paymentToGraphql k w =
    Rejected (JsError "payment does not exist") /\
  requotePayment k w = (Rejected (JsError "payment does not exist"), w) /\
  approvePayment k w = (Rejected (JsError "payment does not exist"), w) /\
  cancelPayment k w = (Rejected (JsError "payment does not exist"), w).
Proof.
  intros Hk. split; [|split].
  - unfold getOutgoingPayment. by rewrite Hk.
  - unfold App.getOutgoingPayment, getOutgoingPayment. by rewrite Hk.
  - by apply commands_on_missing_payment.
Qed.

Lemma unknown_payment_fails_witness :
  approvePayment "p1" Sample.no_payments =
    (Rejected (JsError "payment does not exist"), Sample.no_payments).
Proof.
  apply (unknown_payment_fails (fun p => p) Sample.no_payments "p1" eq_refl).
Defined.

End ServiceProperties.

(** * Further properties of the resolvers *)

Section ResolverProperties.
Import Spec.

Lemma PaymentError_of_string_inv (s : string) (e : PaymentError) :
  PaymentError_of_string s = Some e -> s = PaymentError_name e.
Proof.
  unfold PaymentError_of_string. intros Hfind.
  apply find_some in Hfind as [_ Heq].
  symmetry. by apply String.eqb_eq.
Qed.

(** X11.  Every response of the five mutation resolvers is well formed,
    whatever the service settles to: the code is one of '200', '400', '404'
    and '500', [success] is true exactly with '200', and a payment is carried
    exactly on success.  The invoice mutation answers as the create mutation
    does. *)
Theorem mutation_responses_well_formed {Payment SchemaPayment : Type}
  (paymentToGraphql : Payment -> SchemaPayment)
  (created : Outcome (Payment + Resolvers.CreateError))
  (settled : Outcome (Payment + string)) :
  well_formed (Resolvers.createOutgoingPayment paymentToGraphql created) /\
  Resolvers.createOutgoingInvoicePayment paymentToGraphql created =
    Resolvers.createOutgoingPayment paymentToGraphql created /\
  well_formed (Resolvers.requoteOutgoingPayment paymentToGraphql settled) /\
  well_formed (Resolvers.fundOutgoingPayment paymentToGraphql settled) /\
  well_formed (Resolvers.cancelOutgoingPayment paymentToGraphql settled).
Proof.
  unfold well_formed, response_codes. repeat split;
    try (destruct created as [[?|[]]|err]; simpl;
         try destruct (Resolvers.isPaymentError err &&
                       Resolvers.clientErrors_at err);
         simpl; intuition congruence);
    destruct settled as [[?|?]|err]; simpl; intuition congruence.
Qed.

(** X12.  The create mutation answers '400' only for a thrown
    [PaymentError] of the client table; every other thrown value, an
    [Error] object or a string that is no [PaymentError], gets '500'. *)
Theorem create_mutation_400_only_for_client_errors
  {Payment SchemaPayment : Type} (paymentToGraphql : Payment -> SchemaPayment)
  (err : Thrown) :
  let response :=
    Resolvers.createOutgoingPayment paymentToGraphql (Rejected err) in
  (Resolvers.code response = "400" <->
   exists e, err = PayError e /\ In e terminal_client) /\
  (Resolvers.code response <> "400" -> Resolvers.code response = "500") /\
  (forall m, err = JsError m ->
     Resolvers.code response = "500" /\ Resolvers.message response = Some m).
Proof.
  simpl. split; [|split].
  - destruct err as [m|s|status m]; simpl.
    + split; [done|]. by intros (e & [=] & _).
    + destruct (PaymentError_of_string s) as [e|] eqn:Hs; simpl.
      * apply PaymentError_of_string_inv in Hs as ->.
        destruct (Resolvers.clientErrors e) eqn:Hclient; split.
        -- intros _. exists e. split; [done|].
           by apply clientErrors_terminal_client.
        -- done.
        -- done.
        -- intros (e' & Heq & Hin). exfalso.
           apply clientErrors_terminal_client in Hin.
           unfold PayError in Heq. injection Heq as Heq.
           assert (e' = e) as ->; [|congruence].
           pose proof (PaymentError_of_string_name e) as He.
           rewrite Heq, PaymentError_of_string_name in He. congruence.
      * split; [done|]. intros (e & Heq & _). unfold PayError in Heq.
        injection Heq as ->.
        by rewrite PaymentError_of_string_name in Hs.
    + split; [done|]. by intros (e & [=] & _).
  - by destruct (Resolvers.isPaymentError err && Resolvers.clientErrors_at err).
  - by intros m ->.
Qed.

Lemma create_mutation_400_only_for_client_errors_witness :
  Resolvers.code
    (Resolvers.createOutgoingPayment (fun p : string => p)
       (Rejected (JsError "unable to create source account, err=x"))) =
    "500" /\
  Resolvers.code
    (Resolvers.createOutgoingPayment (fun p : string => p)
       (Rejected (JsString "payment does not exist"))) = "500".
Proof.
  split.
  - destruct (create_mutation_400_only_for_client_errors
                (fun p : string => p)
                (JsError "unable to create source account, err=x"))
      as (_ & _ & Herror).
    apply (Herror _ eq_refl).
  - destruct (create_mutation_400_only_for_client_errors
                (fun p : string => p)
                (JsString "payment does not exist")) as (_ & Hother & _).
    apply Hother. discriminate.
Defined.

(** X13.  The failures [create] raises itself are answered '500' by the
    mutation: an intent that names an invoice together with a pointer or an
    amount, and an account the account service refuses, both come back with
    code '500', [success = false], the text of the error as message, and
    nothing persisted. *)
Theorem create_own_failures_answer_500 {SchemaPayment : Type}
  (paymentToGraphql : Model.OutgoingPayment -> SchemaPayment)
  (deps : Service.ServiceDependencies)
  (input : Service.CreateOutgoingPaymentOptions) (w : Service.World) :
  let answer := App.createOutgoingPayment paymentToGraphql deps input w in
  (Service.invalid_parameters input = true ->
   fst answer =
     {| Resolvers.code := "500"; Resolvers.success := false;
        Resolvers.message :=
          Some "invoiceUrl and (paymentPointer,amountToSend) are mutually exclusive";
        Resolvers.payment := None |} /\
   Service.payments (snd answer) = Service.payments w) /\
  (forall destination accountError,
     Service.invalid_parameters input = false ->
     Service.connect deps (Service.options_superAccountId input) =
       Resolved () ->
     Service.Pay_setupPayment deps
       (Model.paymentPointer (Service.options_intent input))
       (Model.invoiceUrl (Service.options_intent input)) =
       Resolved destination ->
     Service.accountService_create deps
       (Service.options_superAccountId input) =
       Resolved (inl accountError) ->
     fst answer =
       {| Resolvers.code := "500"; Resolvers.success := false;
          Resolvers.message :=
            Some ("unable to create source account, err=" +:+ accountError);
          Resolvers.payment := None |} /\
     Service.payments (snd answer) = Service.payments w).
Proof.
  simpl. unfold App.createOutgoingPayment. split.
  - intros Hg. by rewrite createOutgoingPayment_refused.
  - intros destination accountError Hg Hc Hs Ha.
    by rewrite (createOutgoingPayment_run deps input w Hg), Hc, Hs, Ha.
Qed.

Lemma create_own_failures_answer_500_witness :
  Resolvers.code
    (fst (App.createOutgoingPayment (fun p => p) Sample.answering
            (Sample.options_of Sample.invoice_and_amount)
            Sample.no_payments)) = "500".
Proof.
  destruct (create_own_failures_answer_500 (fun p => p) Sample.answering
              (Sample.options_of Sample.invoice_and_amount)
              Sample.no_payments) as [Hintent _].
  destruct (Hintent eq_refl) as [-> _]. reflexivity.
Defined.

(** X14.  With the service of [outgoing_payment/service.ts] behind them, the
    cancel and the requote mutation answer '200' or '500', never '400'.  The
    cancel mutation answers '200' exactly when the payment exists and is
    [Ready], the requote mutation exactly when it exists and is [Cancelled];
    a '500' answer has changed nothing, and for a payment in another state
    its message is the wrong-state text. *)
Theorem cancel_and_requote_mutations {SchemaPayment : Type}
  (paymentToGraphql : Model.OutgoingPayment -> SchemaPayment)
  (paymentId : string) (w : Service.World) :
  let cancelled := App.cancelOutgoingPayment paymentToGraphql paymentId w in
  let requoted := App.requoteOutgoingPayment paymentToGraphql paymentId w in
  (Resolvers.code (fst cancelled) = "200" <->
   exists p, Service.payments w !! paymentId = Some p /\
             Model.state p = Model.Ready) /\
  (Resolvers.code (fst requoted) = "200" <->
   exists p, Service.payments w !! paymentId = Some p /\
             Model.state p = Model.Cancelled) /\
  (Resolvers.code (fst cancelled) <> "200" ->
   Resolvers.code (fst cancelled) = "500" /\ snd cancelled = w) /\
  (Resolvers.code (fst requoted) <> "200" ->
   Resolvers.code (fst requoted) = "500" /\ snd requoted = w) /\
  (forall p,
     Service.payments w !! paymentId = Some p ->
     (Model.state p <> Model.Ready ->
      Resolvers.message (fst cancelled) =
        Some ("Cannot cancel; payment is in state=" +:+
              Model.PaymentState_name (Model.state p))) /\
     (Model.state p <> Model.Cancelled ->
      Resolvers.message (fst requoted) =
        Some ("Cannot quote; payment is in state=" +:+
              Model.PaymentState_name (Model.state p)))).
Proof.
  simpl. unfold App.cancelOutgoingPayment, App.requoteOutgoingPayment.
  destruct (Service.payments w !! paymentId) as [p|] eqn:Hk.
  - rewrite (cancelPayment_run w paymentId p Hk),
      (requotePayment_run w paymentId p Hk).
    split_and!; repeat case_bool_decide; simpl; try done;
      try (split; [done|by intros (p' & [= <-] & Hs)]);
      try (split; [intros _; by exists p|done]);
      intros p' [= <-]; split; intros Hs; done.
  - destruct (commands_on_missing_payment w paymentId Hk) as (-> & _ & ->).
    simpl. repeat split; try done; by intros (p' & [=] & _).
Qed.

Lemma cancel_and_requote_mutations_witness :
  Resolvers.message
    (fst (App.cancelOutgoingPayment (fun p => p) "p1"
            (Sample.world_with (Sample.row "p1" Model.Sending None)))) =
  Some "Cannot cancel; payment is in state=Sending".
Proof.
  destruct (cancel_and_requote_mutations (fun p => p) "p1"
              (Sample.world_with (Sample.row "p1" Model.Sending None)))
    as (_ & _ & _ & _ & Htext).
  destruct (Htext _ eq_refl) as [Hcancel _].
  apply Hcancel. discriminate.
Defined.

Lemma last_map {A B : Type} (f : A -> B) (l : list A) (d : A) :
  List.last (map f l) (f d) = f (List.last l d).
Proof.
  induction l as [|a l IH]; [done|].
  destruct l as [|b l]; [done|]. exact IH.
Qed.

(** X15.  The edges of an account's page and its page info fit together.
    The [outgoingPayments] resolver returns one edge per payment of the
    page, in order, with the payment's id as cursor; on an empty page the
    page info has both flags false; on a page whose first payment the
    service finds under its id, the page info resolves with the ids of the
    first and of the last payment as start and end cursor and with the
    flags of the two one-more probes around them. *)
Theorem page_info_of_account_page {Payment : Type}
  (payment_id accountId : Payment -> string)
  (service : Resolvers.PageService) (account : string)
  (args : Resolvers.Pagination) (page : list Payment) :
  JS.truthy (Some account) = true ->
  Resolvers.getAccountPage service account args = Resolved page ->
  exists edges,
    Resolvers.getAccountOutgoingPayments payment_id service (Some account)
      args = Resolved edges /\
    map Resolvers.cursor edges = map payment_id page /\
    map Resolvers.node_id edges = map payment_id page /\
    (page = [] ->
     Resolvers.getOutgoingPaymentPageInfo accountId service (Some edges) =
       Resolved no_pages) /\
    (forall p0 rest,
       page = p0 :: rest ->
       Resolvers.get service (payment_id p0) = Resolved (Some p0) ->
       Resolvers.getOutgoingPaymentPageInfo accountId service (Some edges) =
         Resolved
           {| Resolvers.endCursor := Some (payment_id (List.last rest p0));
              Resolvers.hasNextPage :=
                exactly_one
                  (Resolvers.getAccountPage service (accountId p0)
                     (one_after (payment_id (List.last rest p0))));
              Resolvers.hasPreviousPage :=
                exactly_one
                  (Resolvers.getAccountPage service (accountId p0)
                     (one_before (payment_id p0)));
              Resolvers.startCursor := Some (payment_id p0) |}).
Proof.
  intros Haccount Hpage.
  unfold Resolvers.getAccountOutgoingPayments.
  rewrite Haccount, Hpage. cbn [negb].
  eexists. split; [reflexivity|].
  rewrite !map_map. cbn [Resolvers.cursor Resolvers.node_id].
  split; [done|]. split; [done|]. split.
  - by intros ->.
  - intros p0 rest -> Hget. cbn [map].
    rewrite (getOutgoingPaymentPageInfo_found accountId service _ _ p0)
      by exact Hget.
    cbn [Resolvers.cursor].
    pose proof (last_map
                  (fun payment =>
                     {| Resolvers.cursor := payment_id payment;
                        Resolvers.node_id := payment_id payment |})
                  rest p0) as Hlast.
    cbn beta in Hlast. by rewrite Hlast.
Qed.

Lemma page_info_of_account_page_witness :
  exists edges,
    Resolvers.getAccountOutgoingPayments (fun p : string => p)
      Sample.account_pages (Some "acct") Sample.first_page =
      Resolved edges /\
    Resolvers.getOutgoingPaymentPageInfo (fun _ : string => "acct")
      Sample.account_pages (Some edges) =
      Resolved {| Resolvers.endCursor := Some "p2";
                  Resolvers.hasNextPage := true;
                  Resolvers.hasPreviousPage := false;
                  Resolvers.startCursor := Some "p1" |}.
Proof.
  destruct (page_info_of_account_page (fun p : string => p)
              (fun _ : string => "acct") Sample.account_pages "acct"
              Sample.first_page ["p1"; "p2"] eq_refl eq_refl)
    as (edges & Hedges & _ & _ & _ & Hinfo).
  exists edges. split; [exact Hedges|].
  apply (Hinfo "p1" ["p2"] eq_refl eq_refl).
Defined.

(** X16.  The [outcome] resolver reports an amount exactly when the parent
    has a non-empty id, the payment under that id exists and the accounting
    service knows the total sent of the payment's id; the amount is that
    total.  Without an id it fails with 'missing id' and asks no service. *)
Theorem outcome_resolves_iff {Payment : Type}
  (payment_id : Payment -> string) (service : Resolvers.PageService)
  (getTotalSent : string -> Outcome (option Z)) (parent_id : option string)
  (amountSent : Z) :
  (Resolvers.getOutcome payment_id service getTotalSent parent_id =
     Resolved amountSent <->
   exists id payment,
     parent_id = Some id /\
     JS.truthy parent_id = true /\
     Resolvers.get service id = Resolved (Some payment) /\
     getTotalSent (payment_id payment) = Resolved (Some amountSent)) /\
  (JS.truthy parent_id = false ->
   Resolvers.getOutcome payment_id service getTotalSent parent_id =
     Rejected (JsError "missing id")).
Proof.
  unfold Resolvers.getOutcome. split.
  - destruct parent_id as [id|].
    2: { split; [done|]. by intros (? & ? & [=] & _). }
    destruct (JS.truthy (Some id)) eqn:Hid; cbn [negb].
    2: { split; [done|]. by intros (? & ? & _ & [=] & _). }
    split.
    + destruct (Resolvers.get service id) as [[payment|]|] eqn:Hget;
        try done.
      destruct (getTotalSent (payment_id payment)) as [[total|]|] eqn:Hsent;
        try done.
      intros [= <-]. by exists id, payment.
    + intros (id' & payment & [= <-] & _ & -> & ->). done.
  - destruct parent_id as [id|]; [|done]. by intros ->.
Qed.

Lemma outcome_resolves_iff_witness :
  Resolvers.getOutcome (fun p : string => p) Sample.account_pages
    (fun _ => Resolved (Some 0%Z)) (Some "p1") = Resolved 0%Z /\
  Resolvers.getOutcome (fun p : string => p) Sample.account_pages
    (fun _ => Resolved (Some 0%Z)) (Some "") = Rejected (JsError "missing id").
Proof.
  split.
  - apply (outcome_resolves_iff (fun p : string => p) Sample.account_pages
             (fun _ => Resolved (Some 0%Z)) (Some "p1") 0%Z).
    exists "p1", "p1". repeat split.
  - apply (outcome_resolves_iff (fun p : string => p) Sample.account_pages
             (fun _ => Resolved (Some 0%Z)) (Some "") 0%Z).
    reflexivity.
Defined.

End ResolverProperties.

(** * Further properties of the SPSP endpoint *)

Section SpspProperties.
Import Spec SPSP.

(** The handler, by the answers it gets: first the three checks, in the
    order it makes them, then the user, the account and the credentials. *)
Lemma handleSPSP_run env request ctx :
  let id := params_id request in
  handleSPSP env request ctx =
    if negb (valid_user_id env request) then
      (Rejected (HttpError 400
         (Some "Failed to generate credentials: invalid user id")), ctx)
    else if negb (accepts_spsp4 request) then
      (Rejected (HttpError 406
         (Some "Failed to generate credentials: invalid accept: must support application/spsp4+json")),
       ctx)
    else if negb (Bool.eqb (present (receipt_nonce request))
                           (present (receipt_secret request))) then
      (Rejected (HttpError 400
         (Some "Failed to generate credentials: receipt nonce and secret must accompany each other")),
       ctx)
    else
      match User_findById env id with
      | Rejected t => (Rejected t, called [UserFindById id] ctx)
      | Resolved None =>
          (Resolved (), invalid_receiver [UserFindById id] ctx)
      | Resolved (Some user) =>
          let asked := [UserFindById id; AxiosGet (user_accountId user)] in
          match axios_get env (user_accountId user) with
          | Rejected t => (Rejected t, called asked ctx)
          | Resolved res =>
              if turned_away res then
                (Resolved (), invalid_receiver asked ctx)
              else if negb (data_stream_enabled (res_data res)) then
                (Rejected (HttpError 400
                   (Some "Failed to generate credentials: stream is disabled for account")),
                 called asked ctx)
              else
                let generate :=
                  GenerateCredentials (user_accountId user)
                    (receipt_setup request) (data_asset (res_data res)) in
                match generateCredentials env (user_accountId user)
                        (receipt_setup request) (data_asset (res_data res))
                with
                | Resolved credentials =>
                    (Resolved (),
                     credentials_answer
                       (SpspResponse (ilpAddress credentials)
                          (base64url env (sharedSecret credentials))
                          (present (receipt_nonce request) &&
                           present (receipt_secret request)))
                       (asked ++ [generate]) ctx)
                | Rejected err =>
                    (Rejected (HttpError 400 (err_message err)),
                     called (asked ++ [generate]) ctx)
                end
          end
      end.
Proof.
  unfold valid_user_id, accepts_spsp4, receipt_setup, present, turned_away,
    called, invalid_receiver, credentials_answer.
  unfold handleSPSP, ctx_throw, throw. cbn zeta.
  rewrite negb_andb.
  destruct (negb (uuid_validate env _) || _); [done|].
  destruct (negb (JS.includes _ _)); [done|].
  destruct (JS.truthy (receipt_nonce request)),
    (JS.truthy (receipt_secret request)); cbn [negb Bool.eqb]; try done;
    unfold mbind, Async_bind, mret, Async_ret, call, set_status,
      set_content_type, set_body; cbn [calls ctx_status ctx_body
                                       ctx_content_type];
    (destruct (User_findById env _) as [[user|]|]; [| done | done]);
    (destruct (axios_get env _) as [res|];
       [| by (simpl; rewrite <- ?app_assoc)]);
    (destruct (Nat.eqb (res_status res) 404 || _);
       [by (simpl; rewrite <- ?app_assoc)|]);
    (destruct (data_stream_enabled (res_data res)); cbn [negb];
       [| by (simpl; rewrite <- ?app_assoc)]);
    destruct (generateCredentials env _ _ _); simpl;
    by rewrite <- ?app_assoc.
Qed.

(** X17.  The checks of the request come first and in a fixed order.  An
    id that is not a version 4 UUID is answered 400 whatever the headers
    are; with a valid id, an accept header without the SPSP media type is
    answered 406.  Neither answer touches the context, and the handler makes
    a call, the first being the user lookup, only for a request that passes
    all three checks. *)
Theorem spsp_checks_come_first (env : Environment) (request : Request)
  (ctx : Ctx) :
  (valid_user_id env request = false ->
   handleSPSP env request ctx =
     (Rejected (HttpError 400
        (Some "Failed to generate credentials: invalid user id")), ctx)) /\
  (valid_user_id env request = true ->
   accepts_spsp4 request = false ->
   handleSPSP env request ctx =
     (Rejected (HttpError 406
        (Some "Failed to generate credentials: invalid accept: must support application/spsp4+json")),
      ctx)) /\
  (calls (snd (handleSPSP env request ctx)) <> calls ctx ->
   well_formed_request env request = true /\
   exists rest,
     calls (snd (handleSPSP env request ctx)) =
       calls ctx ++ UserFindById (params_id request) :: rest).
Proof.
  rewrite handleSPSP_run. cbn zeta. unfold well_formed_request.
  split; [|split].
  - by intros ->.
  - by intros -> ->.
  - destruct (valid_user_id env request); [|done].
    destruct (accepts_spsp4 request); [|done].
    destruct (Bool.eqb _ _); [|done]. cbn [negb andb].
    intros _. split; [done|].
    destruct (User_findById env _) as [[user|]|]; try by eexists.
    destruct (axios_get env _) as [res|]; [|by eexists].
    destruct (turned_away res); [by eexists|].
    destruct (negb _); [by eexists|].
    destruct (generateCredentials env _ _ _); by eexists.
Qed.

Lemma spsp_checks_come_first_witness :
  handleSPSP Sample.spsp_env (Sample.spsp_request "text/html" None None)
    fresh_ctx =
    (Rejected (HttpError 406
       (Some "Failed to generate credentials: invalid accept: must support application/spsp4+json")),
     fresh_ctx) /\
  well_formed_request Sample.spsp_env Sample.plain_request = true.
Proof.
  split.
  - destruct (spsp_checks_come_first Sample.spsp_env
                (Sample.spsp_request "text/html" None None) fresh_ctx)
      as (_ & Haccept & _).
    apply Haccept; reflexivity.
  - destruct (spsp_checks_come_first Sample.spsp_env Sample.plain_request
                fresh_ctx) as (_ & _ & Hcalls).
    apply Hcalls. discriminate.
Defined.

(** X18.  An unknown user and an account that the accounts service answers
    with 404, or with 200 and [disabled], get the same answer: status 404,
    the SPSP content type and the invalid-receiver body.  For an unknown
    user the accounts service is not asked; in neither case is the STREAM
    server asked for credentials. *)
Theorem spsp_invalid_receiver (env : Environment) (request : Request)
  (ctx : Ctx) :
  well_formed_request env request = true ->
  (User_findById env (params_id request) = Resolved None ->
   handleSPSP env request ctx =
     (Resolved (),
      invalid_receiver [UserFindById (params_id request)] ctx)) /\
  (forall user res,
     User_findById env (params_id request) = Resolved (Some user) ->
     axios_get env (user_accountId user) = Resolved res ->
     turned_away res = true ->
     handleSPSP env request ctx =
       (Resolved (),
        invalid_receiver
          [UserFindById (params_id request); AxiosGet (user_accountId user)]
          ctx)).
Proof.
  unfold well_formed_request.
  intros [[Hid Haccept]%andb_true_iff Hpaired]%andb_true_iff.
  rewrite handleSPSP_run, Hid, Haccept, Hpaired. cbn [negb]. cbn zeta.
  split.
  - by intros ->.
  - by intros user res -> -> ->.
Qed.

Lemma spsp_invalid_receiver_witness :
  handleSPSP Sample.spsp_disabled Sample.plain_request fresh_ctx =
    (Resolved (),
     {| ctx_status := Some 404;
        ctx_content_type := Some "application/spsp4+json";
        ctx_body := Some InvalidReceiverError;
        calls := [ UserFindById "0f4a4e3c-5b1d-4c2e-9d0a-2f6c1b7e8a90";
                   AxiosGet "acct" ] |}).
Proof.
  destruct (spsp_invalid_receiver Sample.spsp_disabled Sample.plain_request
              fresh_ctx eq_refl) as [_ Hdisabled].
  apply (Hdisabled _ _ eq_refl eq_refl eq_refl).
Defined.

(** X19.  The handler asks the STREAM server for credentials only for a
    request that passes the checks, of a user that exists, whose account the
    accounts service returned, not turned away as 404 or disabled, with
    STREAM enabled; the call then comes after the user lookup and the account
    request, and carries the account id, the receipt setup of the two headers
    and the asset of the account. *)
Theorem spsp_credentials_only_for_enabled_accounts (env : Environment)
  (request : Request) (ctx : Ctx) (made : list Call) :
  calls (snd (handleSPSP env request ctx)) = calls ctx ++ made ->
  existsb issued made = true ->
  well_formed_request env request = true /\
  exists user res,
    User_findById env (params_id request) = Resolved (Some user) /\
    axios_get env (user_accountId user) = Resolved res /\
    turned_away res = false /\
    data_stream_enabled (res_data res) = true /\
    made = [ UserFindById (params_id request);
             AxiosGet (user_accountId user);
             GenerateCredentials (user_accountId user)
               (receipt_setup request) (data_asset (res_data res)) ].
Proof.
  rewrite handleSPSP_run. cbn zeta. unfold well_formed_request.
  assert (forall made', calls ctx = calls ctx ++ made' -> made' = [])
    as Hnone.
  { intros made' Heq. apply (app_inv_head (calls ctx)).
    by rewrite app_nil_r. }
  destruct (valid_user_id env request); cbn [negb andb snd];
    [|by (intros ->%Hnone; simpl)].
  destruct (accepts_spsp4 request); cbn [negb andb snd];
    [|by (intros ->%Hnone; simpl)].
  destruct (Bool.eqb _ _); cbn [negb snd]; [|by (intros ->%Hnone; simpl)].
  destruct (User_findById env _) as [[user|]|]; simpl;
    try by (intros <-%app_inv_head; simpl).
  destruct (axios_get env _) as [res|] eqn:Hres; simpl;
    [|by (intros <-%app_inv_head; simpl)].
  destruct (turned_away res) eqn:Haway; simpl;
    [by (intros <-%app_inv_head; simpl)|].
  destruct (data_stream_enabled (res_data res)) eqn:Hstream; simpl;
    [|by (intros <-%app_inv_head; simpl)].
  destruct (generateCredentials env _ _ _); simpl;
    intros <-%app_inv_head _; (split; [done|]); by exists user, res.
Qed.

Lemma spsp_credentials_only_for_enabled_accounts_witness :
  well_formed_request Sample.spsp_env Sample.plain_request = true /\
  exists user res,
    User_findById Sample.spsp_env (params_id Sample.plain_request) =
      Resolved (Some user) /\
    axios_get Sample.spsp_env (user_accountId user) = Resolved res /\
    data_stream_enabled (res_data res) = true.
Proof.
  destruct (spsp_credentials_only_for_enabled_accounts Sample.spsp_env
              Sample.plain_request fresh_ctx
              [ UserFindById "0f4a4e3c-5b1d-4c2e-9d0a-2f6c1b7e8a90";
                AxiosGet "acct";
                GenerateCredentials "acct" None
                  (Some {| asset_code := "USD"; asset_scale := 2 |}) ]
              eq_refl eq_refl)
    as (Hwf & user & res & Hu & Hr & _ & Hs & _).
  split; [exact Hwf|]. exists user, res. auto.
Defined.

(** X20.  What the handler can leave behind.  When it returns, the context
    has the SPSP content type and a body: the invalid-receiver body with
    status 404, or a body with credentials with status 200, unless a status
    had been set on the context before, which is then kept.  When it throws,
    it has written neither status, content type nor body, and the thrown
    value is an HTTP error 400 or 406 of its own or the rejection of the user
    lookup or of the accounts service, passed on as it is. *)
Theorem spsp_outcome_shape (env : Environment) (request : Request)
  (ctx ctx' : Ctx) :
  (handleSPSP env request ctx = (Resolved (), ctx') ->
   ctx_content_type ctx' = Some "application/spsp4+json" /\
   ((ctx_status ctx' = Some 404 /\
     ctx_body ctx' = Some InvalidReceiverError) \/
    (ctx_status ctx' = status_with_body (ctx_status ctx) /\
     (ctx_status ctx = None -> ctx_status ctx' = Some 200) /\
     exists destination_account shared_secret,
       ctx_body ctx' =
         Some (SpspResponse destination_account shared_secret
                 (present (receipt_nonce request) &&
                  present (receipt_secret request)))))) /\
  (forall t,
     handleSPSP env request ctx = (Rejected t, ctx') ->
     (ctx_status ctx' = ctx_status ctx /\
      ctx_content_type ctx' = ctx_content_type ctx /\
      ctx_body ctx' = ctx_body ctx) /\
     ((exists message, t = HttpError 400 message) \/
      (exists message, t = HttpError 406 message) \/
      User_findById env (params_id request) = Rejected t \/
      (exists user, axios_get env (user_accountId user) = Rejected t))).
Proof.
  rewrite handleSPSP_run. cbn zeta.
  destruct (negb (valid_user_id env request)).
  { split; [done|]. intros t [= <- <-]. split; [done|]. left. by eexists. }
  destruct (negb (accepts_spsp4 request)).
  { split; [done|]. intros t [= <- <-]. split; [done|].
    right; left. by eexists. }
  destruct (negb (Bool.eqb _ _)).
  { split; [done|]. intros t [= <- <-]. split; [done|]. left. by eexists. }
  destruct (User_findById env _) as [[user|]|t0].
  2: { split; [|done]. intros [= <-]. simpl. auto. }
  2: { split; [done|]. intros t [= <- <-]. simpl. auto 6. }
  destruct (axios_get env _) as [res|t0] eqn:Hres.
  2: { split; [done|]. intros t [= <- <-]. split; [done|].
       right; right; right. by exists user. }
  destruct (turned_away res).
  { split; [|done]. intros [= <-]. simpl. auto. }
  destruct (negb (data_stream_enabled (res_data res))).
  { split; [done|]. intros t [= <- <-]. split; [done|]. left. by eexists. }
  destruct (generateCredentials env _ _ _) as [credentials|err].
  - split; [|done]. intros [= <-]. simpl. split; [done|]. right.
    split; [done|]. split; [by intros ->|]. by eexists _, _.
  - split; [done|]. intros t [= <- <-]. split; [done|]. left. by eexists.
Qed.

Lemma spsp_outcome_shape_witness :
  (ctx_content_type
     (snd (handleSPSP Sample.spsp_env Sample.plain_request fresh_ctx)) =
     Some "application/spsp4+json" /\
   ctx_status
     (snd (handleSPSP Sample.spsp_env Sample.plain_request fresh_ctx)) =
     Some 200) /\
  ctx_body
    (snd (handleSPSP Sample.spsp_throwing Sample.plain_request fresh_ctx)) =
    None.
Proof.
  split.
  - destruct (spsp_outcome_shape Sample.spsp_env Sample.plain_request
                fresh_ctx
                (snd (handleSPSP Sample.spsp_env Sample.plain_request
                        fresh_ctx))) as [Hreturned _].
    destruct (Hreturned eq_refl) as [Htype _].
    split; [exact Htype|reflexivity].
  - destruct (spsp_outcome_shape Sample.spsp_throwing Sample.plain_request
                fresh_ctx
                (snd (handleSPSP Sample.spsp_throwing Sample.plain_request
                        fresh_ctx))) as [_ Hthrown].
    destruct (Hthrown (HttpError 400 (Some "invalid asset")) eq_refl)
      as [(_ & _ & Hbody) _].
    exact Hbody.
Defined.

(** X21.  For a request that passes the checks, of a user whose account is
    not turned away: when STREAM is not enabled for the account the handler
    answers 400 without asking the STREAM server; when the STREAM server
    throws, it answers 400 with the message of the thrown error.  In both
    cases no body is written. *)
Theorem spsp_stream_failures (env : Environment) (request : Request)
  (ctx : Ctx) (user : User) (res : AxiosResponse) :
  well_formed_request env request = true ->
  User_findById env (params_id request) = Resolved (Some user) ->
  axios_get env (user_accountId user) = Resolved res ->
  turned_away res = false ->
  (data_stream_enabled (res_data res) = false ->
   handleSPSP env request ctx =
     (Rejected (HttpError 400
        (Some "Failed to generate credentials: stream is disabled for account")),
      called [UserFindById (params_id request);
              AxiosGet (user_accountId user)] ctx)) /\
  (forall err,
     data_stream_enabled (res_data res) = true ->
     generateCredentials env (user_accountId user) (receipt_setup request)
       (data_asset (res_data res)) = Rejected err ->
     handleSPSP env request ctx =
       (Rejected (HttpError 400 (err_message err)),
        called [UserFindById (params_id request);
                AxiosGet (user_accountId user);
                GenerateCredentials (user_accountId user)
                  (receipt_setup request) (data_asset (res_data res))]
          ctx)).
Proof.
  unfold well_formed_request.
  intros [[Hid Haccept]%andb_true_iff Hpaired]%andb_true_iff Huser Hres Haway.
  rewrite handleSPSP_run, Hid, Haccept, Hpaired. cbn [negb]. cbn zeta.
  rewrite Huser, Hres, Haway. split.
  - by intros ->.
  - by intros err -> ->.
Qed.

Lemma spsp_stream_failures_witness :
  handleSPSP Sample.spsp_throwing Sample.plain_request fresh_ctx =
    (Rejected (HttpError 400 (Some "invalid asset")),
     called [ UserFindById "0f4a4e3c-5b1d-4c2e-9d0a-2f6c1b7e8a90";
              AxiosGet "acct";
              GenerateCredentials "acct" None
                (Some {| asset_code := "USD"; asset_scale := 2 |}) ]
       fresh_ctx).
Proof.
  destruct (spsp_stream_failures Sample.spsp_throwing Sample.plain_request
              fresh_ctx _ _ eq_refl eq_refl eq_refl eq_refl) as [_ Hthrows].
  apply (Hthrows _ eq_refl eq_refl).
Defined.

End SpspProperties.

(** * Properties of the migrations *)

Section MigrationProperties.
Import Migrations.

(** Creating a table that is not there and dropping it again. *)
Lemma createTable_dropTableIfExists name columns
  (tables : gmap string (list Column)) :
  tables !! name = None ->
  exists tables',
    createTable name columns tables = Some tables' /\
    tables' !! name = Some columns /\
    (forall other, other <> name -> tables' !! other = tables !! other) /\
    dropTableIfExists name tables' = tables.
Proof.
  intros Hfree. unfold createTable, dropTableIfExists. rewrite Hfree.
  eexists. split; [done|]. split; [apply lookup_insert_eq|]. split.
  - intros other Hother. by rewrite lookup_insert_ne.
  - by rewrite delete_insert_id.
Qed.

(** X22.  [down] undoes [up].  On a database without the table, the [up]
    of the users and of the grants migration succeeds, adds its table with
    the declared columns and leaves every other table alone, and the [down]
    that follows gives back the database as it was. *)
Theorem migrations_down_undoes_up (tables : gmap string (list Column)) :
  (tables !! "users" = None ->
   exists tables',
     users_up tables = Some tables' /\
     tables' !! "users" = Some users_columns /\
     (forall other, other <> "users" -> tables' !! other = tables !! other) /\
     users_down tables' = tables) /\
  (tables !! "grants" = None ->
   exists tables',
     grants_up tables = Some tables' /\
     tables' !! "grants" = Some grants_columns /\
     (forall other, other <> "grants" -> tables' !! other = tables !! other) /\
     grants_down tables' = tables).
Proof.
  split; intros Hfree; by apply createTable_dropTableIfExists.
Qed.

Lemma migrations_down_undoes_up_witness :
  exists tables',
    users_up {[ "grants" := grants_columns ]} = Some tables' /\
    tables' !! "grants" = Some grants_columns /\
    users_down tables' = {[ "grants" := grants_columns ]}.
Proof.
  destruct (migrations_down_undoes_up {[ "grants" := grants_columns ]})
    as [Husers _].
  destruct (Husers eq_refl) as (tables' & Hup & _ & Hothers & Hdown).
  exists tables'. split; [exact Hup|]. split; [|exact Hdown].
  rewrite Hothers; [reflexivity|discriminate].
Defined.

(** X23.  [down] is safe to repeat and [up] is not.  The [down] of either
    migration changes nothing on a database without its table, gives the
    same database when run twice as when run once, removes its table and
    leaves every other table alone; the [up] of either migration is refused
    on a database that already has its table, so a second [up] right after
    a first fails. *)
Theorem migrations_down_is_idempotent (tables : gmap string (list Column)) :
  (tables !! "users" = None -> users_down tables = tables) /\
  (tables !! "grants" = None -> grants_down tables = tables) /\
  users_down (users_down tables) = users_down tables /\
  grants_down (grants_down tables) = grants_down tables /\
  users_down tables !! "users" = None /\
  grants_down tables !! "grants" = None /\
  (forall other, other <> "users" ->
     users_down tables !! other = tables !! other) /\
  (forall other, other <> "grants" ->
     grants_down tables !! other = tables !! other) /\
  (is_Some (tables !! "users") -> users_up tables = None) /\
  (is_Some (tables !! "grants") -> grants_up tables = None) /\
  (forall tables', users_up tables = Some tables' ->
     users_up tables' = None) /\
  (forall tables', grants_up tables = Some tables' ->
     grants_up tables' = None).
Proof.
  unfold users_down, grants_down, users_up, grants_up, dropTableIfExists,
    createTable.
  split_and!.
  - apply delete_id.
  - apply delete_id.
  - by rewrite delete_delete_eq.
  - by rewrite delete_delete_eq.
  - apply lookup_delete_eq.
  - apply lookup_delete_eq.
  - intros other Hother. by rewrite lookup_delete_ne.
  - intros other Hother. by rewrite lookup_delete_ne.
  - by intros [columns ->].
  - by intros [columns ->].
  - destruct (tables !! "users"); [done|].
    intros tables' [= <-]. by rewrite lookup_insert_eq.
  - destruct (tables !! "grants"); [done|].
    intros tables' [= <-]. by rewrite lookup_insert_eq.
Qed.

Lemma migrations_down_is_idempotent_witness :
  users_down ∅ = ∅ /\
  users_up {[ "users" := users_columns ]} = None.
Proof.
  split.
  - destruct (migrations_down_is_idempotent ∅) as (Hnone & _).
    apply Hnone. reflexivity.
  - destruct (migrations_down_is_idempotent
                {[ "users" := users_columns ]})
      as (_ & _ & _ & _ & _ & _ & _ & _ & Hagain & _).
    apply Hagain. by eexists.
Defined.

End MigrationProperties.
